(** * Clinical code finder: the query-resolution pipeline

    A shallow embedding of the pipeline of [src/agent], [src/llm] and
    [src/api]: intent classification with its keyword fallback, the
    vocabulary search adapter, primary and secondary dispatch, the
    count-based aggregator, the state graph and the [run_agent] entry point.

    Conventions of the embedding.
    - Python [str] is [string], the UTF-8 form of the text.  [Str.lower] and
      [Str.upper] are the case conversions of ASCII text; the upper-case
      form of other text is asked from the environment ([upper_text]).
      [Str.blank] knows every character that [str.strip] removes.  A string
      with a lone surrogate has no UTF-8 form and is outside the model.
    - A value decoded from JSON (and hence any untyped value the pipeline
      carries around) is a [json].
    - A Python [dict] keyed by vocabulary name is a [gmap string _]; equality
      of such maps is Python's [==] on dicts, which ignores insertion order.
    - A call that may raise returns a [result]; the external collaborators
      (completion service, JSON decoder, HTTP session) are the fields of an
      environment record [Env].
    - Python floats that come from [len(results) / 10] are the correctly
      rounded quotients of two small integers; they are represented by the
      rational they round, so [3 # 10] stands for the float [0.3]. *)

From Stdlib Require Import QArith Qminmax Ascii String.
From stdpp Require Import base option list strings pretty gmap fin_maps.

Close Scope Q_scope.
Set Warnings "-register-all".
Local Open Scope string_scope.

(** ** Exceptions *)

Inductive exn : Set :=
| AttributeError
| KeyError
| IndexError
| TypeError
| ValueError
| JSONDecodeError
| ServiceError.

Inductive result (A : Type) : Type :=
| Ok (a : A)
| Raise (e : exn).
Arguments Ok {A} a.
Arguments Raise {A} e.

Global Instance result_ret : MRet result := λ A a, Ok a.
Global Instance result_bind : MBind result := λ A B f m,
  match m with
  | Ok a => f a
  | Raise e => Raise e
  end.

(** [try: body / except Exception: handler] *)
Definition try_except {A} (body : result A) (handler : exn → result A) : result A :=
  match body with
  | Ok a => Ok a
  | Raise e => handler e
  end.

(** A list comprehension [[f(x) for x in xs]] whose body may raise. *)
Fixpoint comprehension {A B} (f : A → result B) (xs : list A) : result (list B) :=
  match xs with
  | [] => Ok []
  | x :: xs' => y ← f x; ys ← comprehension f xs'; Ok (y :: ys)
  end.

(** ** Strings *)

Module Str.

Definition is_upper (c : ascii) : bool :=
  let n := Ascii.N_of_ascii c in (65 <=? n)%N && (n <=? 90)%N.

Definition is_lower (c : ascii) : bool :=
  let n := Ascii.N_of_ascii c in (97 <=? n)%N && (n <=? 122)%N.

Definition lower_char (c : ascii) : ascii :=
  if is_upper c then Ascii.ascii_of_N (Ascii.N_of_ascii c + 32) else c.

Definition upper_char (c : ascii) : ascii :=
  if is_lower c then Ascii.ascii_of_N (Ascii.N_of_ascii c - 32) else c.

Fixpoint map_chars (f : ascii → ascii) (s : string) : string :=
  match s with
  | EmptyString => EmptyString
  | String c s' => String (f c) (map_chars f s')
  end.

(** [s.lower()] and [s.upper()] on ASCII text; the bytes of other
    characters are left as they are. *)
Definition lower : string → string := map_chars lower_char.
Definition upper : string → string := map_chars upper_char.

(** [word in s] *)
Fixpoint contains (word s : string) : bool :=
  String.prefix word s ||
  match s with
  | EmptyString => false
  | String _ s' => contains word s'
  end.

(** White space as [str.strip] sees it in ASCII text. *)
Definition is_space (c : ascii) : bool :=
  let n := Ascii.N_of_ascii c in
  ((9 <=? n)%N && (n <=? 13)%N) || ((28 <=? n)%N && (n <=? 32)%N).

(** The white space outside ASCII, by its UTF-8 bytes: U+0085 and U+00A0
    take two bytes; U+1680, U+2000 to U+200A, U+2028, U+2029, U+202F, U+205F
    and U+3000 take three. *)
Definition is_space2 (a b : ascii) : bool :=
  let x := Ascii.N_of_ascii a in
  let y := Ascii.N_of_ascii b in
  (x =? 194)%N && ((y =? 133)%N || (y =? 160)%N).

Definition is_space3 (a b c : ascii) : bool :=
  let x := Ascii.N_of_ascii a in
  let y := Ascii.N_of_ascii b in
  let z := Ascii.N_of_ascii c in
  ((x =? 225)%N && (y =? 154)%N && (z =? 128)%N)
  || ((x =? 226)%N && (y =? 128)%N &&
      (((128 <=? z)%N && (z <=? 138)%N) || (z =? 168)%N || (z =? 169)%N || (z =? 175)%N))
  || ((x =? 226)%N && (y =? 129)%N && (z =? 159)%N)
  || ((x =? 227)%N && (y =? 128)%N && (z =? 128)%N).

(** [s.strip() == ""]: the text is white space from end to end. *)
Fixpoint blank (s : string) : bool :=
  match s with
  | EmptyString => true
  | String a s1 =>
      if is_space a then blank s1
      else
        match s1 with
        | EmptyString => false
        | String b s2 =>
            if is_space2 a b then blank s2
            else
              match s2 with
              | EmptyString => false
              | String c s3 => is_space3 a b c && blank s3
              end
        end
  end.

(** Text of ASCII characters only. *)
Fixpoint is_ascii (s : string) : bool :=
  match s with
  | EmptyString => true
  | String c s' => (Ascii.N_of_ascii c <? 128)%N && is_ascii s'
  end.

(** [sep.join(parts)] *)
Fixpoint join (sep : string) (parts : list string) : string :=
  match parts with
  | [] => ""
  | [p] => p
  | p :: ps => p +:+ sep +:+ join sep ps
  end.

Fixpoint chars (s : string) : list string :=
  match s with
  | EmptyString => []
  | String c s' => String c EmptyString :: chars s'
  end.

Definition newline : string := String (Ascii.ascii_of_N 10) EmptyString.

End Str.

(** ** Values decoded from JSON *)

Inductive json : Type :=
| JNull
| JBool (b : bool)
| JNum (q : Q)
| JStr (s : string)
| JArr (items : list json)
| JObj (fields : list (string * json)).

(** Python truth value of a decoded value. *)
Definition truthy (v : json) : bool :=
  match v with
  | JNull => false
  | JBool b => b
  | JNum q => negb (Qeq_bool q 0)
  | JStr s => negb (String.eqb s "")
  | JArr items => negb (bool_decide (length items = 0))
  | JObj fields => negb (bool_decide (length fields = 0))
  end.

(** Lookup of a key among the items of a decoded object. *)
Fixpoint assoc (key : string) (fields : list (string * json)) : option json :=
  match fields with
  | [] => None
  | (k, v) :: rest => if String.eqb k key then Some v else assoc key rest
  end.

(** [data[key]] for a string key. *)
Definition getitem (data : json) (key : string) : result json :=
  match data with
  | JObj fields =>
      match assoc key fields with
      | Some v => Ok v
      | None => Raise KeyError
      end
  | _ => Raise TypeError
  end.

(** [data.get(key, default)] *)
Definition get_default (data : json) (key : string) (default : json) : result json :=
  match data with
  | JObj fields => Ok (from_option id default (assoc key fields))
  | _ => Raise AttributeError
  end.

(** [for s in v]: the elements of a list, the characters of a string, the
    keys of an object; anything else is not iterable. *)
Definition iterate (v : json) : result (list json) :=
  match v with
  | JArr items => Ok items
  | JStr s => Ok (JStr <$> Str.chars s)
  | JObj fields => Ok ((λ kv, JStr kv.1) <$> fields)
  | _ => Raise TypeError
  end.

(** ** [agent/state.py] *)

Inductive CodingSystem : Set := ICD10 | LOINC | RXNORM | HCPCS | UCUM | HPO.

Global Instance CodingSystem_eq_dec : EqDecision CodingSystem.
Proof. solve_decision. Defined.

(** [system.value] *)
Definition value (system : CodingSystem) : string :=
  match system with
  | ICD10 => "icd10cm"
  | LOINC => "loinc"
  | RXNORM => "rxnorm"
  | HCPCS => "hcpcs"
  | UCUM => "ucum"
  | HPO => "hpo"
  end.

Definition members : list CodingSystem := [ICD10; LOINC; RXNORM; HCPCS; UCUM; HPO].

(** [CodingSystem(v)]: the member whose value is [v], or [ValueError]. *)
Definition CodingSystem_of (v : json) : result CodingSystem :=
  match v with
  | JStr s =>
      match List.find (λ m, String.eqb (value m) s) members with
      | Some m => Ok m
      | None => Raise ValueError
      end
  | _ => Raise ValueError
  end.

Definition member_name (system : CodingSystem) : string :=
  match system with
  | ICD10 => "ICD10"
  | LOINC => "LOINC"
  | RXNORM => "RXNORM"
  | HCPCS => "HCPCS"
  | UCUM => "UCUM"
  | HPO => "HPO"
  end.

(** [CodingSystem.NAME]: attribute access on the enumeration class. *)
Definition CodingSystem_attr (name : string) : result CodingSystem :=
  match List.find (λ m, String.eqb (member_name m) name) members with
  | Some m => Ok m
  | None => Raise AttributeError
  end.

Record SearchIntent : Type := mkSearchIntent {
  primary_system : CodingSystem;
  secondary_systems : list CodingSystem;
  refined_query : json;
  concept_type : json
}.

(** One entry of the conversation history, as [run_agent] writes it. *)
Record HistoryEntry : Type := mkHistoryEntry {
  h_query : string;
  h_intent : option SearchIntent;
  h_results_summary : string
}.

(** A normalized result row, the dict [{"code", "display", "system"}] built
    by the adapter. *)
Record CodeResult : Type := mkCodeResult {
  code : json;
  display : string;
  system : string
}.

(** An API call record of the audit trail. *)
Record ApiCall : Type := mkApiCall {
  call_system : string;
  call_query : json;
  result_count : nat
}.

(** ** External collaborators *)

(** The GET request the adapter sends: the endpoint segment of the URL and
    the four query parameters. *)
Record Request : Type := mkRequest {
  req_endpoint : string;
  sf : string;
  df : string;
  maxList : Z;
  terms : json
}.

(** What [session.get(url)] gives back: the call itself fails (connection
    error, timeout), or a response arrives with a status and a body that
    [response.json()] decodes or rejects. *)
Inductive HttpOutcome : Type :=
| ConnectionFailed
| Response (status : Z) (body : result json).

Record Env : Type := mkEnv {
  (** [str(v)] of a decoded value that is not a string *)
  py_str : json → string;
  (** [get_llm_provider().get_llm()], run when a classifier or summarizer is
      first constructed *)
  get_llm : result unit;
  (** [(prompt | llm).invoke({"query": q, "context": c})], as the text of
      the completion *)
  chain_invoke : string → string → result string;
  (** [json.loads] *)
  json_loads : string → result json;
  (** the remote search service, which may answer from what it was asked
      before *)
  session_get : list Request → Request → HttpOutcome;
  (** [ResultSummarizer.summarize(query, results, intent, confidence_scores)]:
      the completion's text, or the failure of the completion call *)
  summarizer_summarize :
    string → gmap string (list CodeResult) → SearchIntent → gmap string Q → result string;
  (** [s.upper()] of text that is not all ASCII *)
  str_upper : string → string
}.

(** [s.upper()] *)
Definition upper_text (E : Env) (s : string) : string :=
  if Str.is_ascii s then Str.upper s else str_upper E s.

(** [f"{v}"] *)
Definition format_value (E : Env) (v : json) : string :=
  match v with
  | JStr s => s
  | _ => py_str E v
  end.

(** ** [llm/intent.py] *)

Module IntentClassifier.

(** [any(word in query_lower for word in words)] *)
Definition any_word_in (words : list string) (query_lower : string) : bool :=
  existsb (λ word, Str.contains word query_lower) words.

Definition _keyword_fallback (query : string) : result SearchIntent :=
  let query_lower := Str.lower query in
  if any_word_in ["diabetes"; "hypertension"; "infection"] query_lower then
    primary ← CodingSystem_attr "ICD10";
    Ok (mkSearchIntent primary [] (JStr query) (JStr "diagnosis"))
  else if any_word_in ["test"; "lab"; "glucose"; "hemoglobin"] query_lower then
    primary ← CodingSystem_attr "LOINC";
    Ok (mkSearchIntent primary [] (JStr query) (JStr "lab"))
  else if any_word_in ["mg"; "tablet"; "medication"; "drug"] query_lower then
    primary ← CodingSystem_attr "RXTERMS";
    Ok (mkSearchIntent primary [] (JStr query) (JStr "drug"))
  else
    primary ← CodingSystem_attr "ICD10";
    secondary ← CodingSystem_attr "LOINC";
    Ok (mkSearchIntent primary [secondary] (JStr query) (JStr "unknown")).

(** [conversation_history[-3:]] *)
Definition last3 {A} (l : list A) : list A := drop (length l - 3) l.

(** The line of context an entry contributes, if its intent is set. *)
Definition context_part (E : Env) (entry : HistoryEntry) : option string :=
  match h_intent entry with
  | Some i =>
      Some ("Query: '" +:+ h_query entry +:+ "' → Found " +:+
            format_value E (concept_type i) +:+ " (" +:+
            format_value E (refined_query i) +:+ ")")
  | None => None
  end.

Definition build_context (E : Env) (conversation_history : list HistoryEntry) : string :=
  let context_parts := omap (context_part E) (last3 conversation_history) in
  match context_parts with
  | [] => "No previous context"
  | _ => Str.join Str.newline context_parts
  end.

(** [re.search(r'\{.*\}', content, re.DOTALL)]: from the first opening
    brace to the last closing brace after it. *)
Fixpoint from_first_open (s : string) : option string :=
  match s with
  | EmptyString => None
  | String c s' => if Ascii.eqb c "{" then Some s else from_first_open s'
  end.

Fixpoint upto_last_close (s : string) : option string :=
  match s with
  | EmptyString => None
  | String c s' =>
      match upto_last_close s' with
      | Some t => Some (String c t)
      | None => if Ascii.eqb c "}" then Some (String c EmptyString) else None
      end
  end.

Definition json_match (content : string) : option string :=
  s ← from_first_open content; upto_last_close s.

(** The body of the [try] block of [classify]. *)
Definition classify_body (E : Env) (query : string)
    (conversation_history : list HistoryEntry) : result SearchIntent :=
  let context := build_context E conversation_history in
  content ← chain_invoke E query context;
  data ← match json_match content with
         | Some group => json_loads E group
         | None => Raise AttributeError (* self._fallback_parse does not exist *)
         end;
  primary ← (v ← getitem data "primary_system"; CodingSystem_of v);
  secondary ← (v ← get_default data "secondary_systems" (JArr []);
               items ← iterate v;
               comprehension CodingSystem_of items);
  refined ← get_default data "refined_query" (JStr query);
  concept ← get_default data "concept_type" (JStr "unknown");
  Ok (mkSearchIntent primary secondary refined concept).

Definition classify (E : Env) (query : string)
    (conversation_history : list HistoryEntry) : result SearchIntent :=
  try_except (classify_body E query conversation_history)
             (λ _, _keyword_fallback query).

End IntentClassifier.

(** ** [api/clinical_tables.py] *)

(** [try: body / except Exception: return fallback] *)
Definition try_return {A} (body : result A) (fallback : A) : A :=
  match body with
  | Ok a => a
  | Raise _ => fallback
  end.

(** [len(v)] *)
Definition py_len (v : json) : result nat :=
  match v with
  | JArr items => Ok (length items)
  | JStr s => Ok (String.length s)
  | JObj fields => Ok (length fields)
  | _ => Raise TypeError
  end.

(** [v[i]] for a non-negative integer [i] *)
Definition subscript (v : json) (i : nat) : result json :=
  match v with
  | JArr items =>
      match items !! i with
      | Some x => Ok x
      | None => Raise IndexError
      end
  | JStr s =>
      match String.get i s with
      | Some c => Ok (JStr (String c EmptyString))
      | None => Raise IndexError
      end
  | JObj _ => Raise KeyError
  | _ => Raise TypeError
  end.

Module ClinicalTablesAPI.

Record Config : Type := mkConfig {
  search_fields : string;
  display_fields : string;
  result_index : nat;
  code_field : nat;
  display_field : nat
}.

Global Instance Config_inhabited : Inhabited Config := populate (mkConfig "" "" 0 0 0).

Definition API_CONFIG : gmap string Config :=
  list_to_map [
    ("icd10cm", mkConfig "code,name" "code,name" 3 0 1);
    ("loinc_items",
      mkConfig "text,COMPONENT,CONSUMER_NAME,RELATEDNAMES2,METHOD_TYP,SHORTNAME,LONG_COMMON_NAME,LOINC_NUM"
               "LOINC_NUM,LONG_COMMON_NAME" 3 0 1);
    ("rxterms",
      mkConfig "DISPLAY_NAME,STRENGTHS_AND_FORMS,DISPLAY_NAME_SYNONYM" "RXCUIS,DISPLAY_NAME" 3 0 1);
    ("hcpcs", mkConfig "code,short_desc,long_desc" "code,display" 3 0 1);
    ("ucum", mkConfig "cs_code,name,synonyms,cs_code_tokens" "cs_code,name" 3 0 1);
    ("hpo", mkConfig "id,name,synonym.term" "id,name" 3 0 1)
  ].

(** [self.API_CONFIG.get(endpoint, self.API_CONFIG["icd10cm"])] *)
Definition config_for (endpoint : string) : Config :=
  from_option id (API_CONFIG !!! "icd10cm") (API_CONFIG !! endpoint).

(** The [params] of the request, with the endpoint that goes in the URL. *)
Definition build_request (config : Config) (endpoint : string) (query : json)
    (limit : Z) : Request :=
  {| req_endpoint := endpoint;
     sf := search_fields config;
     df := display_fields config;
     maxList := limit;
     terms := query |}.

(** One pass of the loop body over a row: [None] when the row is skipped. *)
Definition normalize_item (E : Env) (config : Config) (endpoint : string)
    (item : json) : result (option CodeResult) :=
  match item with
  | JArr fields =>
      if bool_decide (2 ≤ length fields)%nat then
        code ← subscript item (code_field config);
        display ← subscript item (display_field config);
        let synthesized := upper_text E endpoint +:+ ": " +:+ format_value E code in
        shown ← (if negb (truthy display) then Ok synthesized
                 else match display with
                      | JStr s => Ok (if Str.blank s then synthesized else s)
                      | _ => Raise AttributeError (* no strip on this value *)
                      end);
        Ok (Some (mkCodeResult code shown endpoint))
      else Ok None
  | _ => Ok None
  end.

Fixpoint normalize_rows (E : Env) (config : Config) (endpoint : string)
    (rows : list json) : result (list CodeResult) :=
  match rows with
  | [] => Ok []
  | item :: rest =>
      r ← normalize_item E config endpoint item;
      rs ← normalize_rows E config endpoint rest;
      Ok (option_list r ++ rs)%list
  end.

(** The statements under [data = await response.json()]. *)
Definition parse_data (E : Env) (config : Config) (endpoint : string)
    (data : json) : result (list CodeResult) :=
  n ← py_len data;
  if bool_decide (result_index config < n)%nat then
    rows ← subscript data (result_index config);
    match rows with
    | JArr items => normalize_rows E config endpoint items
    | _ => Ok []
    end
  else Ok [].

(** The body of the [try] block of [search]; [raise_for_status] raises on
    a status of 400 or more. *)
Definition search_body (E : Env) (config : Config) (endpoint : string)
    (outcome : HttpOutcome) : result (list CodeResult) :=
  match outcome with
  | ConnectionFailed => Raise ServiceError
  | Response status body =>
      if (400 <=? status)%Z then Raise ServiceError
      else data ← body; parse_data E config endpoint data
  end.

(** [str(n)] of an integer raises [ValueError] when the decimal form has
    more than 4300 digits. *)
Fixpoint at_most_digits (k : nat) (n : Z) : bool :=
  match k with
  | O => false
  | S k' => if (n <? 10)%Z then true else at_most_digits k' (n / 10)
  end.

Definition int_max_str_digits : nat := 4300.

Definition int_str_ok (n : Z) : bool := at_most_digits int_max_str_digits (Z.abs n).

Global Arguments at_most_digits : simpl never.
Global Arguments int_str_ok : simpl never.

(** [urlencode(params)], which writes the limit in decimal and so raises
    for a limit that [str] refuses.  The request stands for the URL built
    from it.  A query that is a decoded value always has a text: [json.loads]
    refuses the integers that [str] refuses.  ([urlencode] also raises for a
    query with a lone surrogate, a text that has no counterpart here.) *)
Definition urlencode (params : Request) : result Request :=
  if int_str_ok (maxList params) then Ok params else Raise ValueError.

(** [search(endpoint, query, limit)], given the requests sent so far.  The
    URL is built before the [try] block is entered. *)
Definition search (E : Env) (endpoint : string) (query : json) (limit : Z)
    (sent : list Request) : result (list CodeResult) * list Request :=
  let config := config_for endpoint in
  match urlencode (build_request config endpoint query limit) with
  | Raise e => (Raise e, sent)
  | Ok request =>
      let outcome := session_get E sent request in
      (Ok (try_return (search_body E config endpoint outcome) []),
       (sent ++ [request])%list)
  end.

End ClinicalTablesAPI.

(** ** [agent/state.py] and [agent/nodes.py] *)

(** Python list objects that outlive a run: the conversation histories,
    addressed by identity. *)
Abbreviation loc := nat.
Abbreviation heap := (gmap nat (list HistoryEntry)).

Record AgentState : Type := mkAgentState {
  user_query : string;
  conversation_history : loc;
  intent : option SearchIntent;
  api_calls_made : list ApiCall;
  raw_results : gmap string (list CodeResult);
  filtered_results : gmap string (list CodeResult);
  summary : string;
  confidence_scores : gmap string Q
}.

(** The dict a node returns: the fields it updates. *)
Record Update : Type := mkUpdate {
  u_intent : option SearchIntent;
  u_api_calls_made : option (list ApiCall);
  u_raw_results : option (gmap string (list CodeResult));
  u_filtered_results : option (gmap string (list CodeResult));
  u_summary : option string;
  u_confidence_scores : option (gmap string Q)
}.

Definition no_update : Update := mkUpdate None None None None None None.

(** The controller writes the returned fields over the running state. *)
Definition merge (state : AgentState) (u : Update) : AgentState :=
  {| user_query := user_query state;
     conversation_history := conversation_history state;
     intent := match u_intent u with Some i => Some i | None => intent state end;
     api_calls_made := default (api_calls_made state) (u_api_calls_made u);
     raw_results := default (raw_results state) (u_raw_results u);
     filtered_results := default (filtered_results state) (u_filtered_results u);
     summary := default (summary state) (u_summary u);
     confidence_scores := default (confidence_scores state) (u_confidence_scores u) |}.

Definition classify_intent_node (E : Env) (h : heap) (state : AgentState) : Update :=
  let attempt :=
    _ ← get_llm E;
    IntentClassifier.classify E (user_query state) (h !!! conversation_history state) in
  let fallback :=
    mkSearchIntent ICD10 [] (JStr (user_query state)) (JStr "unknown") in
  mkUpdate (Some (try_return attempt fallback)) None None None None None.

Definition endpoint_map (system : CodingSystem) : option string :=
  match system with
  | ICD10 => Some "icd10cm"
  | LOINC => Some "loinc_items"
  | RXNORM => Some "rxterms"
  | HCPCS => Some "hcpcs"
  | UCUM => Some "ucum"
  | HPO => Some "hpo"
  end.

(** [_search_system(system, query, limit)]: the adapter's call sits in a
    [try] whose handler returns the empty list. *)
Definition _search_system (E : Env) (system : CodingSystem) (query : json)
    (limit : Z) (sent : list Request) : list CodeResult * list Request :=
  match endpoint_map system with
  | None => ([], sent)
  | Some endpoint =>
      if String.eqb endpoint "" then ([], sent)
      else
        match ClinicalTablesAPI.search E endpoint query limit sent with
        | (Ok results, sent') => (results, sent')
        | (Raise _, sent') => ([], sent')
        end
  end.

(** [state["intent"]] followed by an attribute access on it. *)
Definition the_intent (state : AgentState) : result SearchIntent :=
  match intent state with
  | Some i => Ok i
  | None => Raise AttributeError
  end.

Definition search_primary_node (E : Env) (state : AgentState)
    (sent : list Request) : result Update * list Request :=
  match the_intent state with
  | Raise e => (Raise e, sent)
  | Ok i =>
      let api_calls := api_calls_made state in
      let raw := raw_results state in
      let '(results, sent') :=
        _search_system E (primary_system i) (refined_query i) 10 sent in
      let api_calls := (api_calls ++
        [mkApiCall (value (primary_system i)) (refined_query i) (length results)])%list in
      let raw := <[value (primary_system i) := results]> raw in
      (Ok (mkUpdate None (Some api_calls) (Some raw) None None None), sent')
  end.

(** The loop of [search_secondary_node] over [intent.secondary_systems[:3]]. *)
Fixpoint secondary_loop (E : Env) (systems : list CodingSystem) (query : json)
    (api_calls : list ApiCall) (raw : gmap string (list CodeResult))
    (sent : list Request)
    : list ApiCall * gmap string (list CodeResult) * list Request :=
  match systems with
  | [] => (api_calls, raw, sent)
  | s :: rest =>
      let '(results, sent') := _search_system E s query 5 sent in
      let api_calls := (api_calls ++ [mkApiCall (value s) query (length results)])%list in
      let raw := match results with
                 | [] => raw
                 | _ :: _ => <[value s := results]> raw
                 end in
      secondary_loop E rest query api_calls raw sent'
  end.

Definition search_secondary_node (E : Env) (state : AgentState)
    (sent : list Request) : result Update * list Request :=
  match the_intent state with
  | Raise e => (Raise e, sent)
  | Ok i =>
      let '(api_calls, raw, sent') :=
        secondary_loop E (take 3 (secondary_systems i)) (refined_query i)
                       (api_calls_made state) (raw_results state) sent in
      (Ok (mkUpdate None (Some api_calls) (Some raw) None None None), sent')
  end.

(** [min(a, b)]: the first argument unless the second is smaller. *)
Definition py_min (a b : Q) : Q := if Qle_bool a b then a else b.

(** [min(len(results) / 10, 1.0)] *)
Definition confidence (results : list CodeResult) : Q :=
  py_min (Z.of_nat (length results) # 10) 1.

(** One pass of the loop of [aggregate_results_node]. *)
Definition aggregate_step (system : string) (results : list CodeResult)
    (acc : gmap string (list CodeResult) * gmap string Q)
    : gmap string (list CodeResult) * gmap string Q :=
  match results with
  | [] => acc
  | _ :: _ => (<[system := take 5 results]> acc.1, <[system := confidence results]> acc.2)
  end.

Definition aggregate_results_node (state : AgentState) : Update :=
  let raw := raw_results state in
  let '(filtered, scores) := map_fold aggregate_step (∅, ∅) raw in
  mkUpdate None None None (Some filtered) None (Some scores).

Definition summarize_results_node (E : Env) (state : AgentState) : result Update :=
  _ ← get_llm E;
  i ← the_intent state;
  text ← summarizer_summarize E (user_query state) (filtered_results state) i
                              (confidence_scores state);
  Ok (mkUpdate None None None None (Some text) None).

(** ** [agent/graph.py] *)

Inductive Node : Set :=
| classify_intent
| search_primary
| search_secondary
| aggregate_results
| summarize.

Global Instance Node_eq_dec : EqDecision Node.
Proof. solve_decision. Defined.

Inductive Target : Set :=
| Goto (n : Node)
| END.

(** The name under which [add_node] registers a node. *)
Definition node_name (n : Node) : string :=
  match n with
  | classify_intent => "classify_intent"
  | search_primary => "search_primary"
  | search_secondary => "search_secondary"
  | aggregate_results => "aggregate_results"
  | summarize => "summarize"
  end.

(** A state graph: its entry point, its plain edges and its conditional
    edges (a routing function with the map from its answers to targets). *)
Record StateGraph : Type := mkStateGraph {
  entry_point : Node;
  edges : list (Node * Target);
  conditional_edges :
    list (Node * ((AgentState → result string) * list (string * Target)))
}.

Definition should_search_secondary (state : AgentState) : result string :=
  i ← the_intent state;
  Ok (match secondary_systems i with
      | _ :: _ => "search_secondary"
      | [] => "aggregate_results"
      end).

Definition create_clinical_codes_graph : StateGraph :=
  {| entry_point := classify_intent;
     edges := [ (classify_intent, Goto search_primary);
                (search_secondary, Goto aggregate_results);
                (aggregate_results, Goto summarize);
                (summarize, END) ];
     conditional_edges :=
       [ (search_primary,
          (should_search_secondary,
           [ ("search_secondary", Goto search_secondary);
             ("aggregate_results", Goto aggregate_results) ])) ] |}.

(** The function [add_node] attaches to each node. *)
Definition node_action (E : Env) (h : heap) (n : Node) (state : AgentState)
    (sent : list Request) : result Update * list Request :=
  match n with
  | classify_intent => (Ok (classify_intent_node E h state), sent)
  | search_primary => search_primary_node E state sent
  | search_secondary => search_secondary_node E state sent
  | aggregate_results => (Ok (aggregate_results_node state), sent)
  | summarize => (summarize_results_node E state, sent)
  end.

Definition lookup_name {A} (name : string) (l : list (string * A)) : option A :=
  snd <$> List.find (λ kv, String.eqb kv.1 name) l.

Definition lookup_node {A} (n : Node) (l : list (Node * A)) : option A :=
  snd <$> List.find (λ kv, bool_decide (kv.1 = n)) l.

(** Where the controller goes after node [n] has run and its update has
    been merged into [state]. *)
Definition next_target (g : StateGraph) (n : Node) (state : AgentState) : result Target :=
  match lookup_node n (conditional_edges g) with
  | Some (path, path_map) =>
      name ← path state;
      match lookup_name name path_map with
      | Some t => Ok t
      | None => Raise KeyError
      end
  | None =>
      match lookup_node n (edges g) with
      | Some t => Ok t
      | None => Raise ValueError
      end
  end.

(** How a run of the graph ends. *)
Inductive Outcome : Type :=
| Finished (state : AgentState)
| Failed (e : exn)
| RecursionLimit.

Record Run : Type := mkRun {
  visited : list Node;
  outcome : Outcome;
  requests : list Request
}.

(** The controller: run the current node, merge its update, follow the
    edge; [limit] bounds the number of nodes run. *)
Fixpoint run_from (limit : nat) (E : Env) (h : heap) (g : StateGraph) (n : Node)
    (state : AgentState) (sent : list Request) (trace : list Node) : Run :=
  match limit with
  | O => mkRun trace RecursionLimit sent
  | S limit' =>
      let trace := (trace ++ [n])%list in
      match node_action E h n state sent with
      | (Raise e, sent') => mkRun trace (Failed e) sent'
      | (Ok u, sent') =>
          let state' := merge state u in
          match next_target g n state' with
          | Raise e => mkRun trace (Failed e) sent'
          | Ok END => mkRun trace (Finished state') sent'
          | Ok (Goto n') => run_from limit' E h g n' state' sent' trace
          end
      end
  end.

Definition recursion_limit : nat := 25.

(** [graph.compile().ainvoke(initial_state)] *)
Definition ainvoke (E : Env) (h : heap) (g : StateGraph) (initial_state : AgentState)
    (sent : list Request) : Run :=
  run_from recursion_limit E h g (entry_point g) initial_state sent [].

(** [conversation_history or []]: the caller's list when there is one and
    it is not empty, a new empty list otherwise. *)
Definition history_or_new (conversation_history : option loc) (h : heap) : loc * heap :=
  let fresh_list := let l := fresh (dom h) in (l, <[l := []]> h) in
  match conversation_history with
  | None => fresh_list
  | Some l =>
      match h !!! l with
      | [] => fresh_list
      | _ :: _ => (l, h)
      end
  end.

Definition results_summary (result : AgentState) : string :=
  pretty (size (filtered_results result)) +:+ " systems with results".

(** [run_agent(query, conversation_history)]: the pair it returns (or the
    exception), the heap and the requests sent. *)
Definition run_agent (E : Env) (query : string) (conversation_history : option loc)
    (h : heap) (sent : list Request) : result (AgentState * loc) * heap * list Request :=
  let '(history, h) := history_or_new conversation_history h in
  let app := create_clinical_codes_graph in
  let initial_state :=
    {| user_query := query;
       conversation_history := history;
       intent := None;
       api_calls_made := [];
       raw_results := ∅;
       filtered_results := ∅;
       summary := "";
       confidence_scores := ∅ |} in
  let run := ainvoke E h app initial_state sent in
  match outcome run with
  | Finished result =>
      let entry := mkHistoryEntry query (intent result) (results_summary result) in
      (Ok (result, history), <[history := ((h !!! history) ++ [entry])%list]> h, requests run)
  | Failed e => (Raise e, h, requests run)
  | RecursionLimit => (Raise ServiceError, h, requests run)
  end.

(** ** Vocabulary of the statements *)

(** The rule of the keyword fallback a query reaches. *)
Inductive KeywordRule : Set := DiagnosisRule | LabRule | DrugRule | DefaultRule.

Definition keyword_rule (query : string) : KeywordRule :=
  let query_lower := Str.lower query in
  if IntentClassifier.any_word_in ["diabetes"; "hypertension"; "infection"] query_lower
  then DiagnosisRule
  else if IntentClassifier.any_word_in ["test"; "lab"; "glucose"; "hemoglobin"] query_lower
  then LabRule
  else if IntentClassifier.any_word_in ["mg"; "tablet"; "medication"; "drug"] query_lower
  then DrugRule
  else DefaultRule.

(** A vocabulary name is recognized when it is the value of one of the six
    members of the enumeration. *)
Definition recognized (v : json) : Prop := ∃ c : CodingSystem, v = JStr (value c).

(** The decoded object names a vocabulary that is not recognized, as its
    primary system or among its secondary systems. *)
Definition names_unrecognized (fields : list (string * json)) : Prop :=
  (∃ v, assoc "primary_system" fields = Some v ∧ ¬ recognized v) ∨
  (∃ items v, assoc "secondary_systems" fields = Some (JArr items) ∧
              v ∈ items ∧ ¬ recognized v).

(** The endpoint a vocabulary is searched under. *)
Definition endpoint_of (s : CodingSystem) : string := default "" (endpoint_map s).

(** The request secondary dispatch sends for a vocabulary. *)
Definition secondary_request (query : json) (s : CodingSystem) : Request :=
  ClinicalTablesAPI.build_request
    (ClinicalTablesAPI.config_for (endpoint_of s)) (endpoint_of s) query 5.

(** The answers the secondary loop receives, vocabulary by vocabulary. *)
Fixpoint secondary_answers (E : Env) (systems : list CodingSystem) (query : json)
    (sent : list Request) : list (CodingSystem * list CodeResult) :=
  match systems with
  | [] => []
  | s :: rest =>
      let '(results, sent') := _search_system E s query 5 sent in
      (s, results) :: secondary_answers E rest query sent'
  end.

(** The audit record of one answer, and what the answer leaves in the
    raw-results mapping. *)
Definition audit_record (query : json) (answer : CodingSystem * list CodeResult) : ApiCall :=
  mkApiCall (value answer.1) query (length answer.2).

Definition store_answer (raw : gmap string (list CodeResult))
    (answer : CodingSystem * list CodeResult) : gmap string (list CodeResult) :=
  match answer.2 with
  | [] => raw
  | _ :: _ => <[value answer.1 := answer.2]> raw
  end.

(** What the count-based policy keeps of a vocabulary's raw results, and the
    score it gives them: nothing when there are none. *)
Definition kept (results : list CodeResult) : option (list CodeResult) :=
  match results with
  | [] => None
  | _ :: _ => Some (take 5 results)
  end.

Definition scored (results : list CodeResult) : option Q :=
  match results with
  | [] => None
  | _ :: _ => Some (confidence results)
  end.

(** The rows of a response that has the expected envelope. *)
Definition response_rows (outcome : HttpOutcome) : option (list json) :=
  match outcome with
  | Response status (Ok (JArr data)) =>
      if (400 <=? status)%Z then None
      else match data !! 3%nat with
           | Some (JArr rows) => Some rows
           | _ => None
           end
  | _ => None
  end.

(** The intent the classification node resolves. *)
Definition resolved_intent (E : Env) (h : heap) (state : AgentState) : SearchIntent :=
  default (mkSearchIntent ICD10 [] JNull JNull) (u_intent (classify_intent_node E h state)).

(** The caller's entries: those of the list passed in, none without one. *)
Definition caller_entries (conversation_history : option loc) (h : heap) : list HistoryEntry :=
  match conversation_history with
  | Some l => h !!! l
  | None => []
  end.

(** ** Sample environments *)

Definition row (c d : string) : json := JArr [JStr c; JStr d].

(** A service that answers every search with the same two rows. *)
Definition two_rows : HttpOutcome :=
  Response 200 (Ok (JArr [JNum 2; JArr [JStr "E11"; JStr "E10"]; JNull;
                          JArr [row "E11" "Type 2 diabetes mellitus";
                                row "E10" "Type 1 diabetes mellitus"]])).

(** The completion service is down and the search service does not answer. *)
Definition env_down : Env :=
  mkEnv (λ _, "") (Ok tt) (λ _ _, Raise ServiceError) (λ _, Raise JSONDecodeError)
        (λ _ _, ConnectionFailed) (λ _ _ _ _, Ok "summary") id.

(** The completion names a vocabulary outside the enumeration. *)
Definition env_snomed : Env :=
  mkEnv (λ _, "") (Ok tt)
        (λ _ _, Ok "Here you go: {...}")
        (λ _, Ok (JObj [("primary_system", JStr "snomed");
                        ("refined_query", JStr "asthma")]))
        (λ _ _, ConnectionFailed) (λ _ _ _ _, Ok "summary") id.

(** The completion service is down and every search returns two rows. *)
Definition env_two_rows : Env :=
  mkEnv (λ _, "") (Ok tt) (λ _ _, Raise ServiceError) (λ _, Raise JSONDecodeError)
        (λ _ _, two_rows) (λ _ _ _ _, Ok "summary") id.

(** The completion picks ICD-10 with four secondary vocabularies. *)
Definition env_four_secondary : Env :=
  mkEnv (λ _, "") (Ok tt)
        (λ _ _, Ok "{...}")
        (λ _, Ok (JObj [("primary_system", JStr "icd10cm");
                        ("secondary_systems",
                         JArr [JStr "loinc"; JStr "rxnorm"; JStr "hcpcs"; JStr "ucum"])]))
        (λ _ _, two_rows) (λ _ _ _ _, Ok "summary") id.

(** A state as the classification node leaves it: ICD-10 primary with four
    secondary vocabularies, nothing searched yet. *)
Definition state_four_secondary : AgentState :=
  {| user_query := "diabetes";
     conversation_history := 0%nat;
     intent := Some (mkSearchIntent ICD10 [LOINC; RXNORM; HCPCS; UCUM]
                                    (JStr "diabetes") (JStr "diagnosis"));
     api_calls_made := [];
     raw_results := ∅;
     filtered_results := ∅;
     summary := "";
     confidence_scores := ∅ |}.

(** Raw results as the searches may leave them: twelve ICD-10 results and
    three LOINC results. *)
Definition state_twelve_three : AgentState :=
  {| user_query := "diabetes";
     conversation_history := 0%nat;
     intent := Some (mkSearchIntent ICD10 [LOINC] (JStr "diabetes") (JStr "diagnosis"));
     api_calls_made := [];
     raw_results :=
       {[ "icd10cm" := replicate 12 (mkCodeResult (JStr "E11") "Type 2 diabetes mellitus" "icd10cm");
          "loinc" := replicate 3 (mkCodeResult (JStr "4548-4") "Hemoglobin A1c" "loinc_items") ]};
     filtered_results := ∅;
     summary := "";
     confidence_scores := ∅ |}.

(** The nodes a run enters, given the intent it resolves. *)
Definition expected_path (i : SearchIntent) : list Node :=
  ([classify_intent; search_primary] ++
   match secondary_systems i with
   | [] => []
   | _ :: _ => [search_secondary]
   end ++
   [aggregate_results; summarize])%list.

(** ** Further code of the pipeline files *)

(** [s.split()]: the maximal runs of characters that are not white space.
    The string is read from its end: [split_from s] is the word that starts
    at the head of [s] (empty when [s] starts with white space) and the words
    after it. *)
Definition push_word (word : string) (words : list string) : list string :=
  match word with
  | EmptyString => words
  | String _ _ => word :: words
  end.

Fixpoint split_from (s : string) : string * list string :=
  match s with
  | EmptyString => (EmptyString, [])
  | String a s1 =>
      let in_word := let '(word, words) := split_from s1 in (String a word, words) in
      let after_space (rest : string * list string) :=
        let '(word, words) := rest in (EmptyString, push_word word words) in
      if Str.is_space a then after_space (split_from s1)
      else
        match s1 with
        | EmptyString => in_word
        | String b s2 =>
            if Str.is_space2 a b then after_space (split_from s2)
            else
              match s2 with
              | EmptyString => in_word
              | String c s3 =>
                  if Str.is_space3 a b c then after_space (split_from s3) else in_word
              end
        end
  end.

Definition split (s : string) : list string :=
  let '(word, words) := split_from s in push_word word words.


(** The text [ResultSummarizer.summarize] of [llm/summarizer.py] builds for
    the completion service, from the items of the results dict in their
    order. *)
Module ResultSummarizer.

Definition code_line (E : Env) (item : CodeResult) : string :=
  "  â€¢ " +:+ format_value E (code item) +:+ ": " +:+ display item.

Definition system_detail (E : Env) (entry : string * list CodeResult) : list string :=
  match entry.2 with
  | [] => []
  | _ :: _ =>
      (Str.newline +:+ upper_text E entry.1 +:+ " (" +:+ pretty (length entry.2) +:+ " codes):")
      :: (code_line E <$> take 5 entry.2)
  end.

Definition results_detail (E : Env) (results : list (string * list CodeResult)) : list string :=
  results ≫= system_detail E.

Definition results_text (E : Env) (results : list (string * list CodeResult)) : string :=
  match results_detail E results with
  | [] => "No codes found"
  | detail => Str.join Str.newline detail
  end.

End ResultSummarizer.

(** [llm/base.py]: the provider factory, over the process environment and
    Python's [float]. *)
Module Provider.

Inductive LLMProvider : Type :=
| OllamaProvider (model : string) (temperature : Q) (base_url : string)
| OpenAIProvider (model : string) (temperature : Q).

(** The arguments [get_llm] hands to the client it constructs; importing
    and constructing the client is taken to succeed. *)
Inductive Client : Type :=
| Ollama (model : string) (temperature : Q) (base_url : string)
| ChatOpenAI (model : string) (temperature : Q) (api_key : string).

(** [os.getenv(key, default)] and [os.getenv(key)] *)
Definition getenv (environ : gmap string string) (key default : string) : string :=
  from_option id default (environ !! key).

Definition get_llm_provider (float : string → result Q) (environ : gmap string string)
    : result LLMProvider :=
  let provider := Str.lower (getenv environ "LLM_PROVIDER" "ollama") in
  if String.eqb provider "ollama" then
    let model := getenv environ "OLLAMA_MODEL" "llama2" in
    temperature ← float (getenv environ "LLM_TEMPERATURE" "0");
    Ok (OllamaProvider model temperature
          (getenv environ "OLLAMA_BASE_URL" "http://localhost:11434"))
  else if String.eqb provider "openai" then
    let model := getenv environ "OPENAI_MODEL" "gpt-4" in
    temperature ← float (getenv environ "LLM_TEMPERATURE" "0");
    Ok (OpenAIProvider model temperature)
  else Raise ValueError.

Definition get_llm (environ : gmap string string) (p : LLMProvider) : result Client :=
  match p with
  | OllamaProvider model temperature base_url => Ok (Ollama model temperature base_url)
  | OpenAIProvider model temperature =>
      match environ !! "OPENAI_API_KEY" with
      | None => Raise ValueError
      | Some api_key =>
          if String.eqb api_key "" then Raise ValueError
          else Ok (ChatOpenAI model temperature api_key)
      end
  end.

End Provider.

(** ** Further vocabulary of the statements *)

(** The part of a decoded object that names its vocabularies. *)
Definition system_names (systems : list CodingSystem) : json :=
  JArr ((λ s, JStr (value s)) <$> systems).

(** What a completion must be for [classify] to use it: a text with a JSON
    object in it. The other cases are those below. *)
Inductive Unusable (E : Env) (query context : string) : Prop :=
| NoObject content :
    chain_invoke E query context = Ok content →
    IntentClassifier.json_match content = None →
    Unusable E query context
| NotDecoded content group e :
    chain_invoke E query context = Ok content →
    IntentClassifier.json_match content = Some group →
    json_loads E group = Raise e →
    Unusable E query context
| NoPrimary content group fields :
    chain_invoke E query context = Ok content →
    IntentClassifier.json_match content = Some group →
    json_loads E group = Ok (JObj fields) →
    assoc "primary_system" fields = None →
    Unusable E query context
| SecondaryNotNames content group fields v :
    chain_invoke E query context = Ok content →
    IntentClassifier.json_match content = Some group →
    json_loads E group = Ok (JObj fields) →
    assoc "secondary_systems" fields = Some v →
    (v = JNull ∨ (∃ b, v = JBool b) ∨ (∃ q, v = JNum q) ∨
     (∃ c s, v = JStr (String c s))) →
    Unusable E query context.

(** Two outcomes of the keyword fallback that differ at most in the refined
    query. *)
Definition same_classification (a b : result SearchIntent) : Prop :=
  match a, b with
  | Ok i, Ok j =>
      primary_system i = primary_system j ∧
      secondary_systems i = secondary_systems j ∧
      concept_type i = concept_type j
  | Raise e, Raise e' => e = e'
  | _, _ => False
  end.

(** A row the adapter normalizes without synthesizing anything: an array of
    at least two fields whose second is a string that is not blank. *)
Definition plain_row (item : json) : option (json * string) :=
  match item with
  | JArr (c :: JStr d :: _) => if Str.blank d then None else Some (c, d)
  | _ => None
  end.

(** A row whose display makes the adapter raise: a value that is true but
    has no [strip]. *)
Definition unstrippable_row (item : json) : bool :=
  match item with
  | JArr (_ :: d :: _) =>
      truthy d && match d with JStr _ => false | _ => true end
  | _ => false
  end.

(** The vocabularies a run searches: the primary one, then the first three
    secondary ones. *)
Definition searched (i : SearchIntent) : list CodingSystem :=
  primary_system i :: take 3 (secondary_systems i).

(** The nodes of the graph run one after the other, as plain function
    composition. Once the classification node has set the intent the two
    search nodes cannot raise, so their updates are used as they come. *)
Definition after_dispatch (E : Env) (h : heap) (initial_state : AgentState)
    (sent : list Request) : AgentState * list Request :=
  let s1 := merge initial_state (classify_intent_node E h initial_state) in
  let primary := search_primary_node E s1 sent in
  let s2 := merge s1 (try_return primary.1 no_update) in
  match secondary_systems (resolved_intent E h initial_state) with
  | [] => (s2, primary.2)
  | _ :: _ =>
      let secondary := search_secondary_node E s2 primary.2 in
      (merge s2 (try_return secondary.1 no_update), secondary.2)
  end.

Definition after_aggregate (E : Env) (h : heap) (initial_state : AgentState)
    (sent : list Request) : AgentState * list Request :=
  let dispatched := after_dispatch E h initial_state sent in
  (merge dispatched.1 (aggregate_results_node dispatched.1), dispatched.2).

(** The completion gives a usable object naming LOINC and one secondary. *)
Definition env_refined : Env :=
  mkEnv (λ _, "") (Ok tt)
        (λ _ _, Ok "{...}")
        (λ _, Ok (JObj [("primary_system", JStr "loinc");
                        ("secondary_systems", JArr [JStr "icd10cm"]);
                        ("refined_query", JStr "lipid profile")]))
        (λ _ _, two_rows) (λ _ _ _ _, Ok "summary") id.

(** The completion has no JSON object in it. *)
Definition env_prose : Env :=
  mkEnv (λ _, "") (Ok tt) (λ _ _, Ok "I cannot answer that.") (λ _, Raise JSONDecodeError)
        (λ _ _, two_rows) (λ _ _ _ _, Ok "summary") id.

(** One row of the response has a number where the display should be. *)
Definition env_bad_display : Env :=
  mkEnv (λ _, "") (Ok tt) (λ _ _, Raise ServiceError) (λ _, Raise JSONDecodeError)
        (λ _ _, Response 200 (Ok (JArr [JNull; JNull; JNull;
                                        JArr [row "E11" "Type 2 diabetes mellitus";
                                              JArr [JStr "E10"; JNum 7]]])))
        (λ _ _ _ _, Ok "summary") id.

(** [get_llm_provider().get_llm()], as the constructors of the classifier
    and of the summarizer run it. *)
Definition construct_llm (float : string → result Q) (environ : gmap string string)
    : result unit :=
  p ← Provider.get_llm_provider float environ;
  _ ← Provider.get_llm environ p;
  Ok tt.

(** The process environment selects OpenAI and has no API key. *)
Definition env_no_key : Env :=
  mkEnv (λ _, "") (construct_llm (λ _, Ok 0%Q) {[ "LLM_PROVIDER" := "OpenAI" ]})
        (λ _ _, Ok "{...}")
        (λ _, Ok (JObj [("primary_system", JStr "loinc")]))
        (λ _ _, two_rows) (λ _ _ _ _, Ok "summary") id.

(** A byte that white space can be made of: an ASCII white-space character,
    or a byte of the UTF-8 form of a character outside ASCII. *)
Definition space_byte (c : ascii) : bool :=
  Str.is_space c || (128 <=? Ascii.N_of_ascii c)%N.

Fixpoint all_bytes (P : ascii → bool) (s : string) : bool :=
  match s with
  | EmptyString => true
  | String c s' => P c && all_bytes P s'
  end.

(** The no-break space U+00A0. *)
Definition nbsp : string :=
  String (Ascii.ascii_of_N 194) (String (Ascii.ascii_of_N 160) EmptyString).

(** An answer of the secondary loop that is stored under the key [k]: one
    for the vocabulary of that key, with at least one result. *)
Definition stores (k : string) (answer : CodingSystem * list CodeResult) : bool :=
  bool_decide (value answer.1 = k) && negb (bool_decide (length answer.2 = 0%nat)).

(** The rows of the response have a blank display, none at all, a no-break
    space for one, and a proper one. *)
Definition env_blank_display : Env :=
  mkEnv (λ _, "") (Ok tt) (λ _ _, Raise ServiceError) (λ _, Raise JSONDecodeError)
        (λ _ _, Response 200 (Ok (JArr [JNull; JNull; JNull;
                                        JArr [row "4548-4" "  ";
                                              JArr [JStr "17856-6"; JNull];
                                              row "41995-2" nbsp;
                                              row "4549-2" "Hemoglobin A1c"]])))
        (λ _ _ _ _, Ok "summary") id.

(** A state as primary dispatch may leave it: ICD-10 was searched as primary
    and is named again among the secondary vocabularies. *)
Definition state_primary_again : AgentState :=
  {| user_query := "diabetes";
     conversation_history := 0%nat;
     intent := Some (mkSearchIntent ICD10 [ICD10; LOINC] (JStr "diabetes") (JStr "diagnosis"));
     api_calls_made := [mkApiCall "icd10cm" (JStr "diabetes") 1];
     raw_results :=
       {[ "icd10cm" := [mkCodeResult (JStr "E13") "Other specified diabetes mellitus" "icd10cm"] ]};
     filtered_results := ∅;
     summary := "";
     confidence_scores := ∅ |}.

(** * Properties *)

(** ** The definitions on concrete inputs *)

Example lower_mixed_case : Str.lower "Glucose TEST, 5 mg/dL" = "glucose test, 5 mg/dl".
Proof. reflexivity. Qed.

Example contains_is_substring :
  Str.contains "lab" "tablet" = false ∧ Str.contains "lab" "a lab panel" = true.
Proof. by split. Qed.

Example json_match_greedy :
  IntentClassifier.json_match "Sure: {a: {b: 1}} and } more"
    = Some "{a: {b: 1}} and }" ∧
  IntentClassifier.json_match "no closing { brace" = None ∧
  IntentClassifier.json_match "} before {" = None.
Proof. by repeat split. Qed.

Example keyword_fallback_default :
  IntentClassifier._keyword_fallback "wheelchair"
    = Ok (mkSearchIntent ICD10 [LOINC] (JStr "wheelchair") (JStr "unknown")).
Proof. reflexivity. Qed.

Example keyword_fallback_drug :
  IntentClassifier._keyword_fallback "aspirin tablet" = Raise AttributeError.
Proof. reflexivity. Qed.

Example blank_display_is_synthesized (E : Env) :
  ClinicalTablesAPI.normalize_item E (ClinicalTablesAPI.config_for "loinc_items")
      "loinc_items" (JArr [JStr "4548-4"; JStr "  "])
    = Ok (Some (mkCodeResult (JStr "4548-4") "LOINC_ITEMS: 4548-4" "loinc_items")).
Proof. reflexivity. Qed.

Example no_break_space_is_blank (E : Env) :
  Str.blank nbsp = true ∧
  ClinicalTablesAPI.normalize_item E (ClinicalTablesAPI.config_for "icd10cm")
      "icd10cm" (JArr [JStr "N1"; JStr nbsp])
    = Ok (Some (mkCodeResult (JStr "N1") "ICD10CM: N1" "icd10cm")).
Proof. by split. Qed.

Example split_on_white_space :
  split "  lipid   panel " = ["lipid"; "panel"] ∧
  split ("hemoglobin" +:+ nbsp +:+ "a1c" +:+ Str.newline) = ["hemoglobin"; "a1c"] ∧
  split "" = [] ∧ split nbsp = [].
Proof. by repeat split. Qed.

Example short_row_is_skipped (E : Env) :
  ClinicalTablesAPI.normalize_rows E (ClinicalTablesAPI.config_for "hpo") "hpo"
      [JArr [JStr "HP:0001251"]; row "HP:0002066" "Gait ataxia"]
    = Ok [mkCodeResult (JStr "HP:0002066") "Gait ataxia" "hpo"].
Proof. reflexivity. Qed.

Example truthy_display_without_strip (E : Env) :
  ClinicalTablesAPI.search_body E (ClinicalTablesAPI.config_for "hpo") "hpo"
      (Response 200 (Ok (JArr [JNull; JNull; JNull;
                               JArr [JArr [JStr "HP:0001251"; JBool true]]])))
    = Raise AttributeError.
Proof. reflexivity. Qed.

(** ** Intent classification *)

Section Classification.
Import IntentClassifier.

Lemma keyword_fallback_rule query :
  _keyword_fallback query =
    match keyword_rule query with
    | DiagnosisRule => Ok (mkSearchIntent ICD10 [] (JStr query) (JStr "diagnosis"))
    | LabRule => Ok (mkSearchIntent LOINC [] (JStr query) (JStr "lab"))
    | DrugRule => Raise AttributeError
    | DefaultRule => Ok (mkSearchIntent ICD10 [LOINC] (JStr query) (JStr "unknown"))
    end.
Proof.
  unfold _keyword_fallback, keyword_rule.
  repeat case_match; simplify_eq; reflexivity.
Qed.

Lemma classify_of_raise E query history e :
  classify_body E query history = Raise e →
  classify E query history = _keyword_fallback query.
Proof. unfold classify. by intros ->. Qed.

Lemma classify_of_ok E query history i :
  classify_body E query history = Ok i →
  classify E query history = Ok i.
Proof. unfold classify. by intros ->. Qed.

Lemma CodingSystem_of_recognized v :
  recognized v → ∃ c, CodingSystem_of v = Ok c.
Proof. intros [c ->]. exists c. by destruct c. Qed.

Lemma CodingSystem_of_unrecognized v :
  ¬ recognized v → CodingSystem_of v = Raise ValueError.
Proof.
  intros Hv. destruct v as [| | |s| |]; try reflexivity.
  unfold CodingSystem_of.
  destruct (List.find _ members) as [m|] eqn:Hfind; [|reflexivity].
  apply List.find_some in Hfind as [_ Heq].
  apply String.eqb_eq in Heq. destruct Hv. by exists m; subst.
Qed.

Lemma comprehension_unrecognized items v :
  v ∈ items → ¬ recognized v →
  ∃ e, comprehension CodingSystem_of items = Raise e.
Proof.
  intros Hin Hv. induction Hin as [v items|v w items Hin IH]; simpl.
  - rewrite (CodingSystem_of_unrecognized v Hv). by eexists.
  - destruct (CodingSystem_of w); simpl; [|by eexists].
    destruct (IH Hv) as [e ->]. by eexists.
Qed.

End Classification.

(** C1, as amended. [classify] does not raise on a query that does not reach
    the drug-keyword rule of the fallback, whatever the history and the
    completion service do. For such a query, when the completion-service call
    raises, [classify] returns the intent of the keyword fallback: its
    refined query is the original input verbatim, and its primary system is
    LOINC when the lab rule is the one reached and ICD-10 otherwise. *)
Theorem classify_degrades_to_keyword_fallback
    (E : Env) (query : string) (history : list HistoryEntry) :
  keyword_rule query ≠ DrugRule →
  (∃ i, IntentClassifier.classify E query history = Ok i) ∧
  (∀ e, chain_invoke E query (IntentClassifier.build_context E history) = Raise e →
        ∃ i, IntentClassifier.classify E query history = Ok i ∧
             refined_query i = JStr query ∧
             primary_system i =
               match keyword_rule query with
               | LabRule => LOINC
               | _ => ICD10
               end).
Proof.
  intros Hrule.
  assert (Hfb : ∃ i, IntentClassifier._keyword_fallback query = Ok i ∧
                     refined_query i = JStr query ∧
                     primary_system i =
                       match keyword_rule query with
                       | LabRule => LOINC
                       | _ => ICD10
                       end).
  { rewrite keyword_fallback_rule.
    destruct (keyword_rule query); [| |done|]; eexists; repeat split. }
  split.
  - destruct (IntentClassifier.classify_body E query history) as [i|e] eqn:Hbody.
    + exists i. by apply classify_of_ok.
    + destruct Hfb as (i & Hi & _). exists i.
      by rewrite (classify_of_raise _ _ _ _ Hbody).
  - intros e He.
    rewrite (classify_of_raise E query history e); [exact Hfb|].
    unfold IntentClassifier.classify_body. by rewrite He.
Qed.

Lemma classify_degrades_to_keyword_fallback_witness :
  ∃ i, IntentClassifier.classify env_down "diabetes type 2" [] = Ok i ∧
       refined_query i = JStr "diabetes type 2" ∧
       primary_system i = ICD10.
Proof.
  refine (proj2 (classify_degrades_to_keyword_fallback env_down "diabetes type 2" [] _)
                ServiceError _).
  - vm_compute. discriminate.
  - reflexivity.
Defined.

(** C1 as stated fails: with the completion service down, a query with a lab
    keyword is classified under LOINC, not ICD-10. *)
Lemma classify_fallback_primary_is_loinc :
  chain_invoke env_down "glucose test" (IntentClassifier.build_context env_down [])
    = Raise ServiceError ∧
  ∃ i, IntentClassifier.classify env_down "glucose test" [] = Ok i ∧
       primary_system i = LOINC ∧ primary_system i ≠ ICD10.
Proof.
  split; [reflexivity|].
  eexists. split; [vm_compute; reflexivity|]. by split.
Qed.

(** The drug rule of the fallback names a member the enumeration does not
    have, so a query that reaches it makes [classify] itself raise; the
    classification node catches that and falls back to ICD-10. *)
Lemma classify_raises_on_drug_keyword :
  IntentClassifier.classify env_down "metformin 500 mg" [] = Raise AttributeError ∧
  ∀ h state, user_query state = "metformin 500 mg" →
    u_intent (classify_intent_node env_down h state)
      = Some (mkSearchIntent ICD10 [] (JStr "metformin 500 mg") (JStr "unknown")).
Proof.
  split; [by vm_compute|].
  intros h state Hq. unfold classify_intent_node. rewrite Hq. simpl.
  unfold IntentClassifier.classify. simpl. by vm_compute.
Qed.

(** C6. When the object decoded from the completion names a vocabulary that
    is not one of the six recognized values, as its primary system or among
    its secondary systems, [classify] keeps nothing of the decoded intent and
    runs the keyword fallback on the query. It returns the fallback
    classification when the query reaches the diagnosis rule, the lab rule
    or the default rule. When the query reaches the drug rule no
    classification is returned: the fallback reads [CodingSystem.RXTERMS],
    which the enumeration does not have, and [classify] raises
    [AttributeError]. *)
Theorem unrecognized_vocabulary_falls_back
    (E : Env) (query : string) (history : list HistoryEntry)
    (content group : string) (fields : list (string * json)) :
  chain_invoke E query (IntentClassifier.build_context E history) = Ok content →
  IntentClassifier.json_match content = Some group →
  json_loads E group = Ok (JObj fields) →
  names_unrecognized fields →
  IntentClassifier.classify E query history = IntentClassifier._keyword_fallback query ∧
  IntentClassifier.classify E query history =
    match keyword_rule query with
    | DiagnosisRule => Ok (mkSearchIntent ICD10 [] (JStr query) (JStr "diagnosis"))
    | LabRule => Ok (mkSearchIntent LOINC [] (JStr query) (JStr "lab"))
    | DrugRule => Raise AttributeError
    | DefaultRule => Ok (mkSearchIntent ICD10 [LOINC] (JStr query) (JStr "unknown"))
    end.
Proof.
  intros Hinvoke Hmatch Hloads Hbad.
  assert (∃ e, IntentClassifier.classify_body E query history = Raise e) as [e He].
  { unfold IntentClassifier.classify_body.
    rewrite Hinvoke. simpl. rewrite Hmatch, Hloads. simpl.
    destruct Hbad as [(v & Hv & Hnot)|(items & v & Hitems & Hin & Hnot)].
    - rewrite Hv. simpl. rewrite (CodingSystem_of_unrecognized v Hnot). by eexists.
    - destruct (assoc "primary_system" fields) as [p|]; simpl; [|by eexists].
      destruct (CodingSystem_of p); simpl; [|by eexists].
      rewrite Hitems. simpl.
      destruct (comprehension_unrecognized items v Hin Hnot) as [e' ->]. by eexists. }
  rewrite (classify_of_raise _ _ _ _ He). split; [reflexivity|].
  apply keyword_fallback_rule.
Qed.

Lemma unrecognized_vocabulary_falls_back_witness :
  IntentClassifier.classify env_snomed "metformin 500 mg" [] = Raise AttributeError.
Proof.
  refine (proj2 (unrecognized_vocabulary_falls_back env_snomed "metformin 500 mg" []
                   "Here you go: {...}" "{...}"
                   [("primary_system", JStr "snomed"); ("refined_query", JStr "asthma")]
                   _ _ _ _)).
  - reflexivity.
  - reflexivity.
  - reflexivity.
  - left. exists (JStr "snomed"). split; [reflexivity|].
    intros [c Hc]. destruct c; discriminate Hc.
Defined.

(** ** The vocabulary search adapter *)

Section Adapter.
Import ClinicalTablesAPI.

Lemma API_CONFIG_layout :
  map_Forall (λ _ c, result_index c = 3 ∧ code_field c = 0 ∧ display_field c = 1)%nat
             API_CONFIG.
Proof.
  unfold API_CONFIG. simpl.
  repeat (apply map_Forall_insert_2; [by repeat split|]).
  apply map_Forall_empty.
Qed.

Lemma config_for_layout endpoint :
  (result_index (config_for endpoint) = 3 ∧
   code_field (config_for endpoint) = 0 ∧
   display_field (config_for endpoint) = 1)%nat.
Proof.
  unfold config_for.
  destruct (API_CONFIG !! endpoint) as [c|] eqn:Hc; simpl.
  - exact (API_CONFIG_layout endpoint c Hc).
  - by vm_compute.
Qed.


Lemma normalize_item_system E config endpoint item r :
  normalize_item E config endpoint item = Ok (Some r) → system r = endpoint.
Proof.
  unfold normalize_item. intros H.
  repeat (case_match; simplify_eq/=); try done;
    repeat (match goal with
            | H : mbind _ ?m = Ok _ |- _ => destruct m eqn:?; simplify_eq/=
            end); repeat (case_match; simplify_eq/=); done.
Qed.

Lemma normalize_rows_length E config endpoint rows results :
  normalize_rows E config endpoint rows = Ok results →
  (length results ≤ length rows)%nat ∧ Forall (λ r, system r = endpoint) results.
Proof.
  revert results. induction rows as [|item rest IH]; intros results H; simpl in H.
  - simplify_eq. split; [done|constructor].
  - destruct (normalize_item E config endpoint item) as [r|] eqn:Hitem; simplify_eq/=.
    destruct (normalize_rows E config endpoint rest) as [rs|] eqn:Hrest; simplify_eq/=.
    destruct (IH rs eq_refl) as [Hlen Hsys].
    destruct r as [r|]; simpl.
    + split; [lia|]. constructor; [|done]. by eapply normalize_item_system.
    + split; [lia|done].
Qed.

End Adapter.

Local Ltac no_results := simpl; split; [by constructor | reflexivity].

Lemma search_body_rows E endpoint outcome :
  let results :=
    try_return (ClinicalTablesAPI.search_body E (ClinicalTablesAPI.config_for endpoint)
                                              endpoint outcome) [] in
  Forall (λ r, system r = endpoint) results ∧
  match response_rows outcome with
  | Some rows => (length results ≤ length rows)%nat
  | None => results = []
  end.
Proof.
  cbv zeta.
  destruct (config_for_layout endpoint) as (Hindex & _ & _).
  destruct outcome as [|status body]; [no_results|].
  unfold response_rows. simpl.
  destruct (400 <=? status)%Z; [destruct body as [[]|]; no_results|].
  destruct body as [data|e]; [|no_results].
  unfold ClinicalTablesAPI.parse_data. rewrite Hindex.
  destruct data as [| | |s|items|fields]; try no_results.
  - simpl. case_bool_decide; [|no_results].
    destruct (String.get 3 s); no_results.
  - simpl. case_bool_decide as Hlen.
    + destruct (items !! 3%nat) as [x|] eqn:Hx; [|no_results].
      destruct x as [| | | |rows|]; try no_results.
      simpl.
      destruct (ClinicalTablesAPI.normalize_rows E _ endpoint rows) as [rs|] eqn:Hrows;
        [|simpl; split; [constructor|simpl; lia]].
      apply normalize_rows_length in Hrows as [??]. by split.
    + rewrite lookup_ge_None_2 by lia. no_results.
  - simpl. case_bool_decide; no_results.
Qed.

Lemma at_most_digits_S (k : nat) (n : Z) :
  ClinicalTablesAPI.at_most_digits (S k) n
    = if (n <? 10)%Z then true else ClinicalTablesAPI.at_most_digits k (n / 10).
Proof. reflexivity. Qed.

Lemma at_most_digits_spec (k : nat) (n : Z) :
  (0 ≤ n)%Z →
  ClinicalTablesAPI.at_most_digits (S k) n = true ↔ (n < 10 ^ Z.of_nat (S k))%Z.
Proof.
  revert n. induction k as [|k IH]; intros n Hn; rewrite at_most_digits_S.
  - change (10 ^ Z.of_nat 1)%Z with 10%Z.
    destruct (Z.ltb_spec n 10); [tauto|].
    change (ClinicalTablesAPI.at_most_digits 0 (n / 10)) with false.
    split; [discriminate|lia].
  - rewrite (Nat2Z.inj_succ (S k)), Z.pow_succ_r by lia.
    assert (Hpow : (0 < 10 ^ Z.of_nat (S k))%Z) by (apply Z.pow_pos_nonneg; lia).
    destruct (Z.ltb_spec n 10) as [Hlt|Hge].
    + split; [lia|done].
    + rewrite (IH (n / 10)%Z) by (apply Z.div_pos; lia).
      generalize dependent (10 ^ Z.of_nat (S k))%Z. intros q _ Hq.
      Z.div_mod_to_equations. lia.
Qed.

(** The conversion succeeds on the integers of at most 4300 digits. *)
Lemma int_str_ok_spec (n : Z) :
  ClinicalTablesAPI.int_str_ok n = true ↔ (Z.abs n < 10 ^ 4300)%Z.
Proof.
  unfold ClinicalTablesAPI.int_str_ok.
  change ClinicalTablesAPI.int_max_str_digits with (S 4299).
  rewrite at_most_digits_spec by apply Z.abs_nonneg.
  replace (Z.of_nat 4300) with 4300%Z by (by vm_compute). reflexivity.
Qed.

Lemma int_str_ok_huge : ClinicalTablesAPI.int_str_ok (10 ^ 4300) = false.
Proof.
  destruct (ClinicalTablesAPI.int_str_ok (10 ^ 4300)) eqn:H; [|reflexivity].
  apply int_str_ok_spec in H. rewrite Z.abs_eq in H by (apply Z.pow_nonneg; lia).
  by apply Z.lt_irrefl in H.
Qed.

Lemma int_str_ok_two_digits (n : Z) : (Z.abs n < 100)%Z → ClinicalTablesAPI.int_str_ok n = true.
Proof.
  intros Hn. unfold ClinicalTablesAPI.int_str_ok.
  change ClinicalTablesAPI.int_max_str_digits with (S (S 4298)).
  rewrite (at_most_digits_S (S 4298)), (at_most_digits_S 4298).
  destruct (Z.abs n <? 10)%Z; [done|].
  rewrite (proj2 (Z.ltb_lt (Z.abs n / 10) 10)); [done|].
  apply Z.div_lt_upper_bound; lia.
Qed.

(** Once the URL is built, [search] sends it and cannot raise any more. *)
Lemma search_sends E endpoint query limit sent :
  ClinicalTablesAPI.int_str_ok limit = true →
  let config := ClinicalTablesAPI.config_for endpoint in
  let request := ClinicalTablesAPI.build_request config endpoint query limit in
  ClinicalTablesAPI.search E endpoint query limit sent
    = (Ok (try_return (ClinicalTablesAPI.search_body E config endpoint
                         (session_get E sent request)) []),
       (sent ++ [request])%list).
Proof.
  intros Hok. cbv zeta. unfold ClinicalTablesAPI.search, ClinicalTablesAPI.urlencode.
  cbn [maxList ClinicalTablesAPI.build_request]. by rewrite Hok.
Qed.

(** A limit of more than 4300 digits makes [search] raise while it builds
    the URL, before the [try] block and before anything is sent; the
    dispatch helper catches that and reports no result. *)
Lemma search_raises_before_sending E endpoint query limit sent :
  ClinicalTablesAPI.int_str_ok limit = false →
  ClinicalTablesAPI.search E endpoint query limit sent = (Raise ValueError, sent) ∧
  ∀ s, _search_system E s query limit sent = ([], sent).
Proof.
  intros Hok.
  assert (Hraise : ∀ endpoint,
            ClinicalTablesAPI.search E endpoint query limit sent = (Raise ValueError, sent)).
  { intros endpoint'. unfold ClinicalTablesAPI.search, ClinicalTablesAPI.urlencode.
    cbn [maxList ClinicalTablesAPI.build_request]. by rewrite Hok. }
  split; [apply Hraise|].
  intros s. unfold _search_system.
  destruct s; cbn [endpoint_map String.eqb Ascii.eqb Bool.eqb]; by rewrite Hraise.
Qed.

Example search_raises_on_huge_limit (E : Env) (sent : list Request) :
  ClinicalTablesAPI.int_str_ok (10 ^ 4300 - 1) = true ∧
  ClinicalTablesAPI.search E "icd10cm" (JStr "diabetes") (10 ^ 4300) sent
    = (Raise ValueError, sent).
Proof.
  split.
  - apply int_str_ok_spec.
    assert (Hpow : (0 < 10 ^ 4300)%Z) by (by apply Z.pow_pos_nonneg).
    generalize dependent (10 ^ 4300)%Z. intros b Hb. lia.
  - apply search_raises_before_sending, int_str_ok_huge.
Qed.

(** C3, as amended. For every endpoint, every query that can be written in
    a URL (a text without lone surrogates, as all texts here are, or a
    decoded value) and every limit whose decimal form has at most 4300
    digits, so that the URL can be built, [search] does not raise: it sends
    one request that carries the limit as [maxList] and returns a finite
    sequence of normalized results, all tagged with the endpoint. The sequence has at most as many elements as the
    response has rows, hence at most [limit] when the service sends no more
    rows than it was asked for; the limit is not enforced on it otherwise.
    On a failed connection, a status of 400 or more, a body that does not
    decode, or a missing or malformed envelope, the sequence is empty. *)
Theorem search_returns_at_most_the_rows
    (E : Env) (endpoint : string) (query : json) (limit : Z) (sent : list Request) :
  ClinicalTablesAPI.int_str_ok limit = true →
  let request :=
    ClinicalTablesAPI.build_request (ClinicalTablesAPI.config_for endpoint)
                                    endpoint query limit in
  ∃ results,
    ClinicalTablesAPI.search E endpoint query limit sent
      = (Ok results, (sent ++ [request])%list) ∧
    maxList request = limit ∧
    Forall (λ r, system r = endpoint) results ∧
    match response_rows (session_get E sent request) with
    | Some rows =>
        (length results ≤ length rows)%nat ∧
        ((Z.of_nat (length rows) ≤ limit)%Z → (Z.of_nat (length results) ≤ limit)%Z)
    | None => results = []
    end.
Proof.
  intros Hok request. rewrite (search_sends E endpoint query limit sent Hok).
  cbv zeta. fold request.
  eexists. split; [reflexivity|]. split; [reflexivity|].
  destruct (search_body_rows E endpoint (session_get E sent request)) as [Hsys Hrows].
  split; [exact Hsys|].
  destruct (response_rows (session_get E sent request)); [|exact Hrows].
  split; [exact Hrows|lia].
Qed.

Lemma search_returns_at_most_the_rows_witness :
  ∃ results,
    ClinicalTablesAPI.search env_two_rows "icd10cm" (JStr "diabetes") 2 []
      = (Ok results, [mkRequest "icd10cm" "code,name" "code,name" 2 (JStr "diabetes")]) ∧
    (Z.of_nat (length results) ≤ 2)%Z.
Proof.
  destruct (search_returns_at_most_the_rows env_two_rows "icd10cm" (JStr "diabetes") 2 []
              eq_refl) as (results & Hsearch & _ & _ & Hrows).
  exists results. split; [exact Hsearch|].
  apply (proj2 Hrows). vm_compute. discriminate.
Defined.

(** C3 as stated fails: asked for at most one result, the adapter hands on
    both rows of a response that carries two. *)
Lemma search_exceeds_limit :
  ∃ results sent,
    ClinicalTablesAPI.search env_two_rows "icd10cm" (JStr "diabetes") 1 []
      = (Ok results, sent) ∧
    length results = 2%nat ∧ ¬ (Z.of_nat (length results) ≤ 1)%Z.
Proof.
  eexists _, _. split; [vm_compute; reflexivity|]. simpl. split; [reflexivity|lia].
Qed.

(** A status below 400 that is not a success passes [raise_for_status], so
    its body is parsed like any other. *)
Lemma search_parses_status_300 (E : Env) (sent : list Request) :
  session_get E sent
    (ClinicalTablesAPI.build_request (ClinicalTablesAPI.config_for "hpo") "hpo" JNull 10)
    = Response 300 (Ok (JArr [JNull; JNull; JNull; JArr [row "HP:0001251" "Ataxia"]])) →
  (ClinicalTablesAPI.search E "hpo" JNull 10 sent).1
    = Ok [mkCodeResult (JStr "HP:0001251") "Ataxia" "hpo"].
Proof.
  intros Hget. rewrite search_sends by (by apply int_str_ok_two_digits).
  cbv zeta. rewrite Hget. by vm_compute.
Qed.



(** ** Dispatch *)

Global Instance value_inj : Inj (=) (=) value.
Proof. intros [] [] H; by simplify_eq. Qed.

Lemma _search_system_search E s query limit sent :
  ClinicalTablesAPI.int_str_ok limit = true →
  let endpoint := endpoint_of s in
  let config := ClinicalTablesAPI.config_for endpoint in
  let request := ClinicalTablesAPI.build_request config endpoint query limit in
  _search_system E s query limit sent
    = (try_return (ClinicalTablesAPI.search_body E config endpoint
                     (session_get E sent request)) [],
       (sent ++ [request])%list).
Proof.
  intros Hok. cbv zeta. unfold _search_system.
  destruct s; cbn [endpoint_map endpoint_of String.eqb Ascii.eqb Bool.eqb];
    by rewrite (search_sends _ _ _ _ _ Hok).
Qed.

Lemma _search_system_sent E s query limit sent :
  ClinicalTablesAPI.int_str_ok limit = true →
  (_search_system E s query limit sent).2
    = (sent ++ [ClinicalTablesAPI.build_request
                  (ClinicalTablesAPI.config_for (endpoint_of s)) (endpoint_of s)
                  query limit])%list.
Proof. intros Hok. by rewrite (_search_system_search _ _ _ _ _ Hok). Qed.

Lemma int_str_ok_5 : ClinicalTablesAPI.int_str_ok 5 = true.
Proof. by apply int_str_ok_two_digits. Qed.

Lemma int_str_ok_10 : ClinicalTablesAPI.int_str_ok 10 = true.
Proof. by apply int_str_ok_two_digits. Qed.

Lemma secondary_loop_spec E systems query api_calls raw sent :
  secondary_loop E systems query api_calls raw sent
    = ((api_calls ++ (audit_record query <$> secondary_answers E systems query sent))%list,
       foldl store_answer raw (secondary_answers E systems query sent),
       (sent ++ (secondary_request query <$> systems))%list).
Proof.
  revert api_calls raw sent.
  induction systems as [|s rest IH]; intros api_calls raw sent; simpl.
  - by rewrite !app_nil_r.
  - pose proof (_search_system_sent E s query 5 sent int_str_ok_5) as Hsent.
    destruct (_search_system E s query 5 sent) as [results sent'] eqn:Hs.
    simpl in Hsent. subst sent'. rewrite IH. simpl.
    rewrite <- !app_assoc. simpl.
    unfold store_answer at 2, audit_record at 2. simpl.
    by destruct results.
Qed.

Lemma secondary_answers_systems E systems query sent :
  (secondary_answers E systems query sent).*1 = systems.
Proof.
  revert sent. induction systems as [|s rest IH]; intros sent; simpl; [done|].
  destruct (_search_system E s query 5 sent). simpl. by rewrite IH.
Qed.

Lemma foldl_store_answer_unchanged s answers raw :
  (∀ rs, (s, rs) ∈ answers → rs = []) →
  foldl store_answer raw answers !! value s = raw !! value s.
Proof.
  revert raw. induction answers as [|[s' rs'] rest IH]; intros raw Hzero; simpl; [done|].
  rewrite IH by (intros rs Hin; apply Hzero; by right).
  unfold store_answer. simpl. destruct rs' as [|r rs']; [done|].
  apply lookup_insert_ne. intros Heq. apply (inj value) in Heq. subst s'.
  by specialize (Hzero (r :: rs') ltac:(left)).
Qed.

(** C4. In a state whose intent is resolved: when the primary search returns
    zero results, primary dispatch appends an audit record with count 0 for
    the primary vocabulary and stores the empty list under its key in the
    raw results. Secondary dispatch appends an audit record with count 0 for
    every secondary vocabulary whose search returns zero results, and when
    all searches of that vocabulary return zero results the raw results hold
    under its key exactly what they held before: no key is gained. *)
Theorem zero_results_recorded
    (E : Env) (state : AgentState) (sent : list Request) (i : SearchIntent) :
  intent state = Some i →
  let query := refined_query i in
  let answers := secondary_answers E (take 3 (secondary_systems i)) query sent in
  ((_search_system E (primary_system i) query 10 sent).1 = [] →
   ∃ u sent' raw,
     search_primary_node E state sent = (Ok u, sent') ∧
     u_api_calls_made u
       = Some (api_calls_made state ++ [mkApiCall (value (primary_system i)) query 0])%list ∧
     u_raw_results u = Some raw ∧
     raw !! value (primary_system i) = Some []) ∧
  (∃ u sent' calls raw,
     search_secondary_node E state sent = (Ok u, sent') ∧
     u_api_calls_made u = Some (api_calls_made state ++ calls)%list ∧
     u_raw_results u = Some raw ∧
     ∀ s, (s, []) ∈ answers →
       mkApiCall (value s) query 0 ∈ calls ∧
       ((∀ rs, (s, rs) ∈ answers → rs = []) →
        raw !! value s = raw_results state !! value s)).
Proof.
  intros Hintent query answers. split.
  - intros Hzero. unfold search_primary_node, the_intent. rewrite Hintent.
    fold query.
    destruct (_search_system E (primary_system i) query 10 sent) as [results sent'].
    simpl in Hzero. subst results.
    eexists _, _, _. split; [reflexivity|]. simpl.
    split; [reflexivity|]. split; [reflexivity|]. apply lookup_insert_eq.
  - unfold search_secondary_node, the_intent. rewrite Hintent.
    rewrite secondary_loop_spec. fold query answers.
    eexists _, _, _, _. split; [reflexivity|]. simpl.
    split; [reflexivity|]. split; [reflexivity|].
    intros s Hs. split.
    + apply list_elem_of_fmap. by exists (s, []).
    + by apply foldl_store_answer_unchanged.
Qed.

Lemma zero_results_recorded_witness :
  ∃ u sent' raw,
    search_primary_node env_down state_four_secondary [] = (Ok u, sent') ∧
    u_api_calls_made u = Some [mkApiCall "icd10cm" (JStr "diabetes") 0] ∧
    u_raw_results u = Some raw ∧
    raw !! "icd10cm" = Some [].
Proof.
  apply (proj1 (zero_results_recorded env_down state_four_secondary [] _ eq_refl)).
  reflexivity.
Defined.

(** C5. In a state whose intent is resolved, secondary dispatch sends one
    request for each of the first three secondary vocabularies, in order and
    each with limit 5, sends nothing else, and appends one audit record per
    vocabulary attempted. With the secondary systems LOINC, RXNORM, HCPCS and
    UCUM the requests go to the LOINC, RXNORM and HCPCS endpoints and none
    goes to UCUM. *)
Theorem secondary_dispatch_first_three
    (E : Env) (state : AgentState) (sent : list Request) (i : SearchIntent) :
  intent state = Some i →
  let systems := take 3 (secondary_systems i) in
  ∃ u new calls,
    search_secondary_node E state sent = (Ok u, (sent ++ new)%list) ∧
    u_api_calls_made u = Some (api_calls_made state ++ calls)%list ∧
    req_endpoint <$> new = endpoint_of <$> systems ∧
    Forall (λ r, maxList r = 5%Z ∧ terms r = refined_query i) new ∧
    call_system <$> calls = value <$> systems ∧
    (secondary_systems i = [LOINC; RXNORM; HCPCS; UCUM] →
     req_endpoint <$> new = ["loinc_items"; "rxterms"; "hcpcs"] ∧
     call_system <$> calls = ["loinc"; "rxnorm"; "hcpcs"] ∧
     "ucum" ∉ req_endpoint <$> new).
Proof.
  intros Hintent systems.
  unfold search_secondary_node, the_intent. rewrite Hintent.
  rewrite secondary_loop_spec. fold systems.
  eexists _, _, _. split; [reflexivity|]. simpl. split; [reflexivity|].
  assert (Hreq : req_endpoint <$> (secondary_request (refined_query i) <$> systems)
                 = endpoint_of <$> systems).
  { rewrite <- list_fmap_compose. by apply list_fmap_ext. }
  assert (Hcalls : call_system <$> (audit_record (refined_query i) <$>
                     secondary_answers E systems (refined_query i) sent)
                   = value <$> systems).
  { rewrite <- list_fmap_compose.
    rewrite <- (secondary_answers_systems E systems (refined_query i) sent) at 2.
    rewrite <- list_fmap_compose. by apply list_fmap_ext. }
  split; [exact Hreq|]. split.
  { apply Forall_fmap, Forall_true. by intros s. }
  split; [exact Hcalls|].
  intros Hfour. rewrite Hreq, Hcalls. unfold systems. rewrite Hfour. simpl.
  split; [reflexivity|]. split; [reflexivity|].
  rewrite !elem_of_cons, elem_of_nil. intros [?|[?|[?|[]]]]; discriminate.
Qed.

Lemma secondary_dispatch_first_three_witness :
  ∃ u new calls,
    search_secondary_node env_two_rows state_four_secondary [] = (Ok u, new) ∧
    u_api_calls_made u = Some calls ∧
    req_endpoint <$> new = ["loinc_items"; "rxterms"; "hcpcs"] ∧
    call_system <$> calls = ["loinc"; "rxnorm"; "hcpcs"] ∧
    "ucum" ∉ req_endpoint <$> new.
Proof.
  destruct (secondary_dispatch_first_three env_two_rows state_four_secondary [] _ eq_refl)
    as (u & new & calls & Hnode & Hcalls & _ & _ & _ & Hfour).
  exists u, new, calls. split; [exact Hnode|]. split; [exact Hcalls|].
  exact (Hfour eq_refl).
Defined.

(** ** The aggregator *)

Lemma aggregate_fold_lookup (raw : gmap string (list CodeResult)) (k : string) :
  (map_fold aggregate_step (∅, ∅) raw).1 !! k = raw !! k ≫= kept ∧
  (map_fold aggregate_step (∅, ∅) raw).2 !! k = raw !! k ≫= scored.
Proof.
  revert k.
  apply (map_fold_weak_ind
           (λ acc (m : gmap string (list CodeResult)),
              ∀ k, acc.1 !! k = m !! k ≫= kept ∧ acc.2 !! k = m !! k ≫= scored)).
  - intros k. by rewrite !lookup_empty.
  - intros i x m acc Hi IH k.
    destruct (decide (i = k)) as [->|Hne].
    + rewrite lookup_insert_eq. simpl.
      destruct x as [|r x]; simpl.
      * destruct (IH k) as [-> ->]. by rewrite Hi.
      * by rewrite !lookup_insert_eq.
    + rewrite (lookup_insert_ne m) by done.
      destruct x as [|r x]; simpl; [apply IH|].
      rewrite !lookup_insert_ne by done. apply IH.
Qed.

Lemma aggregate_results_node_fields (state : AgentState) :
  aggregate_results_node state
    = mkUpdate None None None
        (Some (map_fold aggregate_step (∅, ∅) (raw_results state)).1) None
        (Some (map_fold aggregate_step (∅, ∅) (raw_results state)).2).
Proof.
  unfold aggregate_results_node.
  by destruct (map_fold aggregate_step (∅, ∅) (raw_results state)).
Qed.

Lemma confidence_is_min (results : list CodeResult) :
  (confidence results == Qmin (inject_Z (Z.of_nat (length results)) / 10) 1)%Q.
Proof.
  assert (Hdiv : (Z.of_nat (length results) # 10 ==
                  inject_Z (Z.of_nat (length results)) / 10)%Q).
  { rewrite (Qmake_Qdiv (Z.of_nat (length results)) 10). reflexivity. }
  unfold confidence, py_min. rewrite <- Hdiv.
  destruct (Qle_bool _ 1) eqn:Hle.
  - apply Qle_bool_iff in Hle. symmetry. by apply Q.min_l.
  - symmetry. apply Q.min_r. apply Qlt_le_weak, Qnot_le_lt.
    intros Hle'. apply Qle_bool_iff in Hle'. congruence.
Qed.

(** C2. The count-based aggregator returns a filtered-results map and a
    confidence map such that, for every vocabulary: when its raw results are
    not empty, the filtered results are their first five, unchanged, and the
    confidence is [min(count / 10, 1)]; when it has no raw results, or an
    empty list of them, it is a key of neither map. In particular, when the
    raw results are twelve ICD-10 results and three LOINC results, the
    confidence map is [{icd10cm: 1.0, loinc: 0.3}] and five ICD-10 results
    are kept. *)
Theorem aggregate_count_policy (state : AgentState) :
  ∃ filtered scores,
    aggregate_results_node state
      = mkUpdate None None None (Some filtered) None (Some scores) ∧
    (∀ k,
       match raw_results state !! k with
       | Some (r :: rs) =>
           filtered !! k = Some (take 5 (r :: rs)) ∧
           (∃ c, scores !! k = Some c ∧
                 (c == Qmin (inject_Z (Z.of_nat (length (r :: rs))) / 10) 1)%Q)
       | Some [] | None => filtered !! k = None ∧ scores !! k = None
       end) ∧
    (∀ icd loinc,
       length icd = 12%nat → length loinc = 3%nat →
       raw_results state = {[ "icd10cm" := icd; "loinc" := loinc ]} →
       scores = {[ "icd10cm" := 1%Q; "loinc" := (3 # 10)%Q ]} ∧
       length <$> filtered !! "icd10cm" = Some 5%nat).
Proof.
  eexists _, _. split; [apply aggregate_results_node_fields|].
  split.
  - intros k. destruct (aggregate_fold_lookup (raw_results state) k) as [Hf Hs].
    rewrite Hf, Hs.
    destruct (raw_results state !! k) as [[|r rs]|]; simpl; try done.
    split; [done|]. eexists. split; [done|]. apply confidence_is_min.
  - intros icd loinc Hicd Hloinc Hraw. split.
    + apply map_eq. intros k.
      destruct (aggregate_fold_lookup (raw_results state) k) as [_ ->].
      rewrite Hraw.
      destruct (decide (k = "icd10cm")) as [->|Hk1].
      { rewrite !lookup_insert_eq. simpl.
        destruct icd as [|r icd]; [done|]. simpl.
        unfold confidence. by rewrite Hicd. }
      rewrite !(lookup_insert_ne _ "icd10cm") by done.
      destruct (decide (k = "loinc")) as [->|Hk2].
      { rewrite !lookup_singleton_eq. simpl.
        destruct loinc as [|r loinc]; [done|]. simpl.
        unfold confidence. by rewrite Hloinc. }
      by rewrite !lookup_singleton_ne.
    + destruct (aggregate_fold_lookup (raw_results state) "icd10cm") as [-> _].
      rewrite Hraw, lookup_insert_eq. simpl.
      destruct icd as [|r icd]; [done|]. simpl.
      rewrite length_take. simpl in Hicd. f_equal. lia.
Qed.

Lemma aggregate_count_policy_witness :
  ∃ filtered scores,
    aggregate_results_node state_twelve_three
      = mkUpdate None None None (Some filtered) None (Some scores) ∧
    scores = {[ "icd10cm" := 1%Q; "loinc" := (3 # 10)%Q ]} ∧
    length <$> filtered !! "icd10cm" = Some 5%nat.
Proof.
  destruct (aggregate_count_policy state_twelve_three)
    as (filtered & scores & Hnode & _ & Hexample).
  exists filtered, scores. split; [exact Hnode|].
  apply (Hexample
           (replicate 12 (mkCodeResult (JStr "E11") "Type 2 diabetes mellitus" "icd10cm"))
           (replicate 3 (mkCodeResult (JStr "4548-4") "Hemoglobin A1c" "loinc_items")));
    reflexivity.
Defined.

(** C7. The aggregator reads nothing but the raw results of the state, does
    no I/O and cannot raise; running it again on the state its own update was
    merged into gives the same update, hence the same filtered results and
    confidence scores. *)
Theorem aggregate_pure_idempotent (state : AgentState) :
  let once := merge state (aggregate_results_node state) in
  let twice := merge once (aggregate_results_node once) in
  (∀ q l i calls filtered text scores,
     aggregate_results_node
       (mkAgentState q l i calls (raw_results state) filtered text scores)
       = aggregate_results_node state) ∧
  (∀ E h sent,
     node_action E h aggregate_results state sent
       = (Ok (aggregate_results_node state), sent)) ∧
  aggregate_results_node once = aggregate_results_node state ∧
  filtered_results twice = filtered_results once ∧
  confidence_scores twice = confidence_scores once ∧
  twice = once.
Proof.
  intros once twice.
  assert (Honce : aggregate_results_node once = aggregate_results_node state).
  { unfold once. rewrite !aggregate_results_node_fields. reflexivity. }
  split; [reflexivity|]. split; [reflexivity|]. split; [exact Honce|].
  assert (Htwice : twice = once).
  { unfold twice. rewrite Honce. unfold once.
    rewrite aggregate_results_node_fields. reflexivity. }
  by rewrite Htwice.
Qed.

(** ** The pipeline controller *)

Lemma run_from_step limit E h g n state sent trace u sent' :
  node_action E h n state sent = (Ok u, sent') →
  run_from (S limit) E h g n state sent trace =
    match next_target g n (merge state u) with
    | Raise e => mkRun (trace ++ [n]) (Failed e) sent'
    | Ok END => mkRun (trace ++ [n]) (Finished (merge state u)) sent'
    | Ok (Goto n') => run_from limit E h g n' (merge state u) sent' (trace ++ [n])
    end.
Proof. simpl. by intros ->. Qed.

Lemma next_target_search_primary state i :
  intent state = Some i →
  next_target create_clinical_codes_graph search_primary state =
    Ok (Goto (match secondary_systems i with
              | [] => aggregate_results
              | _ :: _ => search_secondary
              end)).
Proof.
  intros Hi. unfold next_target. simpl.
  unfold should_search_secondary, the_intent. rewrite Hi. simpl.
  by destruct (secondary_systems i).
Qed.

Lemma search_primary_node_ok E state sent i :
  intent state = Some i →
  ∃ u sent', search_primary_node E state sent = (Ok u, sent') ∧ u_intent u = None.
Proof.
  intros Hi. unfold search_primary_node, the_intent. rewrite Hi.
  destruct (_search_system E _ _ 10 sent). by eexists _, _.
Qed.

Lemma search_secondary_node_ok E state sent i :
  intent state = Some i →
  ∃ u sent', search_secondary_node E state sent = (Ok u, sent') ∧ u_intent u = None.
Proof.
  intros Hi. unfold search_secondary_node, the_intent. rewrite Hi.
  rewrite secondary_loop_spec. by eexists _, _.
Qed.

Lemma merge_keeps_intent state u :
  u_intent u = None → intent (merge state u) = intent state.
Proof. unfold merge. simpl. by intros ->. Qed.

Lemma merge_user_query state u : user_query (merge state u) = user_query state.
Proof. reflexivity. Qed.

Lemma resolved_intent_merged E h state :
  intent (merge state (classify_intent_node E h state)) = Some (resolved_intent E h state).
Proof. reflexivity. Qed.

Lemma run_from_raise limit E h g n state sent trace e sent' :
  node_action E h n state sent = (Raise e, sent') →
  run_from (S limit) E h g n state sent trace = mkRun (trace ++ [n]) (Failed e) sent'.
Proof. simpl. by intros ->. Qed.

Lemma next_target_plain n t state :
  lookup_node n (edges create_clinical_codes_graph) = Some t →
  n ≠ search_primary →
  next_target create_clinical_codes_graph n state = Ok t.
Proof.
  intros Ht Hn.
  destruct n; try done; vm_compute in Ht; simplify_eq; reflexivity.
Qed.

Lemma run_from_aggregate limit E h state sent trace :
  run_from (S (S limit)) E h create_clinical_codes_graph aggregate_results state sent trace =
    let state' := merge state (aggregate_results_node state) in
    mkRun (trace ++ [aggregate_results; summarize])
          (match summarize_results_node E state' with
           | Ok u => Finished (merge state' u)
           | Raise e => Failed e
           end)
          sent.
Proof.
  rewrite (run_from_step _ E h _ aggregate_results state sent trace
             (aggregate_results_node state) sent eq_refl).
  rewrite (next_target_plain aggregate_results (Goto summarize)) by done.
  cbv zeta.
  destruct (summarize_results_node E (merge state (aggregate_results_node state)))
    as [u|e] eqn:Hsum.
  - rewrite (run_from_step _ E h _ summarize _ sent _ u sent)
      by (unfold node_action; by rewrite Hsum).
    rewrite (next_target_plain summarize END) by done.
    by rewrite <- app_assoc.
  - rewrite (run_from_raise _ E h _ summarize _ sent _ e sent)
      by (unfold node_action; by rewrite Hsum).
    by rewrite <- app_assoc.
Qed.

(** A run enters the nodes of the expected path and ends with the outcome of
    the summary node. *)
Lemma ainvoke_run E h initial_state sent :
  ∃ state sent',
    intent state = Some (resolved_intent E h initial_state) ∧
    user_query state = user_query initial_state ∧
    ainvoke E h create_clinical_codes_graph initial_state sent =
      mkRun (expected_path (resolved_intent E h initial_state))
            (match summarize_results_node E state with
             | Ok u => Finished (merge state u)
             | Raise e => Failed e
             end)
            sent'.
Proof.
  set (i := resolved_intent E h initial_state).
  set (s1 := merge initial_state (classify_intent_node E h initial_state)).
  assert (H1 : intent s1 = Some i) by apply resolved_intent_merged.
  destruct (search_primary_node_ok E s1 sent i H1) as (u2 & sent2 & Hp & Hu2).
  set (s2 := merge s1 u2).
  assert (H2 : intent s2 = Some i) by (unfold s2; by rewrite merge_keeps_intent).
  unfold ainvoke, recursion_limit.
  change (entry_point create_clinical_codes_graph) with classify_intent.
  rewrite (run_from_step _ E h _ classify_intent initial_state sent []
             (classify_intent_node E h initial_state) sent eq_refl).
  rewrite (next_target_plain classify_intent (Goto search_primary)) by done.
  fold s1. rewrite (run_from_step _ E h _ search_primary s1 sent _ u2 sent2 Hp).
  fold s2. rewrite (next_target_search_primary s2 i H2).
  unfold expected_path. fold i.
  destruct (secondary_systems i) as [|c cs] eqn:Hsec.
  - rewrite run_from_aggregate. cbv zeta.
    eexists _, sent2. split; [|split; [|reflexivity]].
    + rewrite merge_keeps_intent; [done|]. by rewrite aggregate_results_node_fields.
    + reflexivity.
  - destruct (search_secondary_node_ok E s2 sent2 i H2) as (u3 & sent3 & Hs & Hu3).
    rewrite (run_from_step _ E h _ search_secondary s2 sent2 _ u3 sent3 Hs).
    rewrite (next_target_plain search_secondary (Goto aggregate_results)) by done.
    rewrite run_from_aggregate. cbv zeta.
    eexists _, sent3. split; [|split; [|reflexivity]].
    + rewrite !merge_keeps_intent; [done|done|]. by rewrite aggregate_results_node_fields.
    + reflexivity.
Qed.

Lemma summarize_results_node_ok E state u :
  summarize_results_node E state = Ok u →
  u_intent u = None ∧ u_filtered_results u = None.
Proof.
  unfold summarize_results_node. intros H.
  destruct (get_llm E); simplify_eq/=.
  destruct (the_intent state); simplify_eq/=.
  destruct (summarizer_summarize E _ _ _ _); by simplify_eq/=.
Qed.

(** C8. Every run enters the classification node, then primary search, then
    secondary search exactly when the resolved intent has at least one
    secondary vocabulary, then aggregation, then the summary node; with no
    secondary vocabulary it goes from primary search straight to
    aggregation. Every edge other than the one out of primary search leads
    to the same target whatever the state, the run stops after the summary
    node (finished, or failed with the exception the summary node raised),
    and the recursion limit is never hit. *)
Theorem secondary_branch_iff_secondary_systems
    (E : Env) (h : heap) (initial_state : AgentState) (sent : list Request) :
  let g := create_clinical_codes_graph in
  let i := resolved_intent E h initial_state in
  let run := ainvoke E h g initial_state sent in
  visited run =
    match secondary_systems i with
    | [] => [classify_intent; search_primary; aggregate_results; summarize]
    | _ :: _ =>
        [classify_intent; search_primary; search_secondary; aggregate_results; summarize]
    end ∧
  (search_secondary ∈ visited run ↔ secondary_systems i ≠ []) ∧
  match outcome run with
  | Finished final => intent final = Some i
  | Failed e => ∃ state, summarize_results_node E state = Raise e
  | RecursionLimit => False
  end ∧
  (∀ state, next_target g classify_intent state = Ok (Goto search_primary)) ∧
  (∀ state j, intent state = Some j →
     next_target g search_primary state =
       Ok (Goto (match secondary_systems j with
                 | [] => aggregate_results
                 | _ :: _ => search_secondary
                 end))) ∧
  (∀ state, next_target g search_secondary state = Ok (Goto aggregate_results)) ∧
  (∀ state, next_target g aggregate_results state = Ok (Goto summarize)) ∧
  (∀ state, next_target g summarize state = Ok END).
Proof.
  intros g i run.
  destruct (ainvoke_run E h initial_state sent) as (state & sent' & Hi & _ & Hrun).
  fold i g run in Hrun, Hi.
  assert (Hpath : visited run =
    match secondary_systems i with
    | [] => [classify_intent; search_primary; aggregate_results; summarize]
    | _ :: _ =>
        [classify_intent; search_primary; search_secondary; aggregate_results; summarize]
    end).
  { rewrite Hrun. unfold expected_path. simpl. by destruct (secondary_systems i). }
  split; [exact Hpath|]. split.
  { rewrite Hpath. destruct (secondary_systems i) as [|c cs].
    - split; [|done]. rewrite !elem_of_cons, elem_of_nil.
      intros [?|[?|[?|[?|[]]]]]; discriminate.
    - split; [done|]. intros _. rewrite !elem_of_cons. right; right; by left. }
  split.
  { rewrite Hrun. simpl.
    destruct (summarize_results_node E state) as [u|e] eqn:Hsum; [|by exists state].
    apply summarize_results_node_ok in Hsum as [Hu _].
    by rewrite merge_keeps_intent. }
  split; [by intros; apply next_target_plain|].
  split; [by intros; apply next_target_search_primary|].
  repeat split; by intros; apply next_target_plain.
Qed.

(** A run whose completion names four secondary vocabularies enters the
    secondary search and sends four requests, one primary and three
    secondary; a run classified by the diagnosis rule of the fallback has no
    secondary vocabulary and skips it. *)
Example run_with_four_secondary :
  let run := run_agent env_four_secondary "chest pain" None ∅ [] in
  req_endpoint <$> run.2 = ["icd10cm"; "loinc_items"; "rxterms"; "hcpcs"] ∧
  maxList <$> run.2 = [10; 5; 5; 5]%Z ∧
  visited (ainvoke env_four_secondary ∅ create_clinical_codes_graph
             (mkAgentState "chest pain" 0%nat None [] ∅ ∅ "" ∅) [])
    = [classify_intent; search_primary; search_secondary; aggregate_results; summarize].
Proof. by vm_compute. Qed.

Example run_without_secondary :
  visited (ainvoke env_down ∅ create_clinical_codes_graph
             (mkAgentState "diabetes type 2" 0%nat None [] ∅ ∅ "" ∅) [])
    = [classify_intent; search_primary; aggregate_results; summarize].
Proof. by vm_compute. Qed.

(** ** The entry point *)

Lemma history_or_new_spec (conversation_history : option loc) (h : heap) :
  ∃ history h1,
    history_or_new conversation_history h = (history, h1) ∧
    h1 !!! history = caller_entries conversation_history h ∧
    (∀ l, l ≠ history → h1 !! l = h !! l) ∧
    (∀ l, l ∈ dom h → h1 !! l = h !! l) ∧
    match conversation_history with
    | Some l =>
        match h !!! l with
        | [] => history ∉ dom h
        | _ :: _ => history = l
        end
    | None => history ∉ dom h
    end.
Proof.
  assert (Hfresh : ∀ entries, entries = [] →
    let l := fresh (dom h) in
    <[l := []]> h !!! l = entries ∧
    (∀ l', l' ≠ l → <[l := []]> h !! l' = h !! l') ∧
    (∀ l', l' ∈ dom h → <[l := []]> h !! l' = h !! l') ∧
    l ∉ dom h).
  { intros entries -> l.
    assert (Hl : l ∉ dom h) by apply is_fresh.
    split; [by rewrite lookup_total_insert_eq|].
    split; [by intros l' ?; rewrite lookup_insert_ne|].
    split; [|done].
    intros l' Hl'. rewrite lookup_insert_ne; [done|]. by intros ->. }
  unfold history_or_new, caller_entries.
  destruct conversation_history as [l|].
  - destruct (h !!! l) as [|entry entries] eqn:Hl.
    + eexists _, _. split; [reflexivity|]. rewrite <- Hl at 2.
      destruct (Hfresh (h !!! l) Hl) as (? & ? & ? & ?). done.
    + eexists _, _. split; [reflexivity|]. by rewrite Hl.
  - eexists _, _. split; [reflexivity|].
    destruct (Hfresh [] eq_refl) as (? & ? & ? & ?). done.
Qed.

(** C9, as amended. When the run completes, the history list [run_agent]
    returns holds the caller's entries, unchanged, followed by exactly one
    new entry made of the query, the resolved intent and the text
    ["<n> systems with results"], [n] being the number of vocabularies with
    filtered results; no other list changes. The append is made in place on
    the caller's list when that list is not empty; when the caller passes an
    empty list or none, the returned list is a new one and the caller's list
    is left as it was. When the run fails, no list of the caller changes. *)
Theorem run_agent_appends_one_entry
    (E : Env) (query : string) (conversation_history : option loc)
    (h : heap) (sent : list Request) :
  match run_agent E query conversation_history h sent with
  | (Ok (result, history), h', _) =>
      let entry :=
        mkHistoryEntry query (intent result)
          (pretty (size (filtered_results result)) +:+ " systems with results") in
      h' !! history = Some (caller_entries conversation_history h ++ [entry])%list ∧
      is_Some (intent result) ∧
      (∀ l, l ≠ history → h' !! l = h !! l) ∧
      match conversation_history with
      | Some l =>
          match h !!! l with
          | [] => history ∉ dom h
          | _ :: _ => history = l
          end
      | None => history ∉ dom h
      end
  | (Raise _, h', _) => ∀ l, l ∈ dom h → h' !! l = h !! l
  end.
Proof.
  unfold run_agent.
  destruct (history_or_new_spec conversation_history h)
    as (history & h1 & -> & Hentries & Hother & Hdom & Hwhich).
  match goal with
  | |- context [ainvoke E h1 _ ?s sent] =>
      destruct (ainvoke_run E h1 s sent) as (state & sent' & Hi & _ & ->)
  end.
  simpl outcome. simpl requests.
  destruct (summarize_results_node E state) as [u|e] eqn:Hsum; [|exact Hdom].
  apply summarize_results_node_ok in Hsum as [Hu _].
  split; [by rewrite lookup_insert_eq, Hentries|].
  split; [rewrite merge_keeps_intent by done; by rewrite Hi|].
  split; [|exact Hwhich].
  intros l Hl. rewrite lookup_insert_ne by done. by apply Hother.
Qed.

(** C9 as stated fails: handed an empty list, [run_agent] leaves it empty and
    returns another list with the new entry. *)
Lemma run_agent_leaves_empty_list_alone :
  ∃ result history h' sent',
    run_agent env_down "glucose" (Some 0%nat) {[ 0%nat := [] ]} [] =
      (Ok (result, history), h', sent') ∧
    h' !! 0%nat = Some [] ∧
    history ≠ 0%nat ∧
    length <$> h' !! history = Some 1%nat.
Proof.
  eexists _, _, _, _. split; [vm_compute; reflexivity|].
  split; [by vm_compute|]. split; [by vm_compute|]. by vm_compute.
Qed.

(** * Further properties *)

(** ** Strings and the extraction of the JSON object *)

Lemma app_cons (c : ascii) (s t : string) : String c s +:+ t = String c (s +:+ t).
Proof. reflexivity. Qed.

Lemma app_empty_l (s : string) : "" +:+ s = s.
Proof. reflexivity. Qed.

Lemma app_assoc_string (a b c : string) : (a +:+ b) +:+ c = a +:+ b +:+ c.
Proof. induction a as [|x a IH]; [done|]. by rewrite !app_cons, IH. Qed.

Lemma contains_char_cons (c a : ascii) (s : string) :
  Str.contains (String c "") (String a s)
    = Ascii.eqb c a || Str.contains (String c "") s.
Proof.
  cbn. destruct (ascii_dec c a) as [->|Hne].
  - rewrite Ascii.eqb_refl. by destruct s.
  - apply Ascii.eqb_neq in Hne. by rewrite Hne.
Qed.

Lemma contains_char_app (c : ascii) (s t : string) :
  Str.contains (String c "") (s +:+ t)
    = Str.contains (String c "") s || Str.contains (String c "") t.
Proof.
  induction s as [|a s IH].
  - rewrite app_empty_l. by destruct t.
  - rewrite app_cons, !contains_char_cons, IH. by rewrite orb_assoc.
Qed.

Lemma from_first_open_spec (s t : string) :
  IntentClassifier.from_first_open s = Some t ↔
  ∃ pre rest, s = pre +:+ t ∧ t = String "{" rest ∧ Str.contains "{" pre = false.
Proof.
  split.
  - induction s as [|c s IH]; [done|]. simpl.
    destruct (Ascii.eqb c "{") eqn:Hc.
    + intros [= <-]. apply Ascii.eqb_eq in Hc as ->. by exists "", s.
    + intros (pre & rest & -> & Ht & Hpre)%IH.
      exists (String c pre), rest. rewrite app_cons. split; [done|]. split; [done|].
      rewrite contains_char_cons, Hpre, Ascii.eqb_sym, Hc. done.
  - intros (pre & rest & -> & -> & Hpre).
    induction pre as [|c pre IH]; [done|].
    rewrite contains_char_cons in Hpre. apply orb_false_elim in Hpre as [Hc Hpre].
    rewrite app_cons. simpl. rewrite Ascii.eqb_sym, Hc. by apply IH.
Qed.

Lemma upto_last_close_cons (c : ascii) (s : string) :
  IntentClassifier.upto_last_close (String c s) =
    match IntentClassifier.upto_last_close s with
    | Some t => Some (String c t)
    | None => if Ascii.eqb c "}" then Some (String c "") else None
    end.
Proof. reflexivity. Qed.

Lemma upto_last_close_none (s : string) :
  IntentClassifier.upto_last_close s = None ↔ Str.contains "}" s = false.
Proof.
  induction s as [|c s IH]; [done|].
  rewrite contains_char_cons, upto_last_close_cons.
  destruct (IntentClassifier.upto_last_close s) as [t|].
  - split; [done|]. intros [_ Hs]%orb_false_elim. by apply IH in Hs.
  - rewrite (proj1 IH eq_refl), orb_false_r, Ascii.eqb_sym.
    destruct (Ascii.eqb "}" c); by split.
Qed.

Lemma upto_last_close_spec (s t : string) :
  IntentClassifier.upto_last_close s = Some t ↔
  ∃ mid post, s = mid +:+ "}" +:+ post ∧ t = mid +:+ "}" ∧ Str.contains "}" post = false.
Proof.
  split.
  - revert t. induction s as [|c s IH]; intros t; [done|].
    rewrite upto_last_close_cons.
    destruct (IntentClassifier.upto_last_close s) as [t'|] eqn:Hs.
    + intros [= <-]. destruct (IH t' eq_refl) as (mid & post & -> & -> & Hpost).
      by exists (String c mid), post.
    + destruct (Ascii.eqb c "}") eqn:Hc; [|done].
      intros [= <-]. apply Ascii.eqb_eq in Hc as ->.
      exists "", s. by apply upto_last_close_none in Hs.
  - intros (mid & post & -> & -> & Hpost).
    induction mid as [|c mid IH].
    + rewrite !app_empty_l. change ("}" +:+ post) with (String "}" post).
      rewrite upto_last_close_cons.
      by rewrite (proj2 (upto_last_close_none post) Hpost).
    + rewrite (app_cons c mid ("}" +:+ post)), (app_cons c mid "}").
      rewrite upto_last_close_cons. by rewrite IH.
Qed.

(** X1. [json_match] finds a group exactly when the text can be cut into a
    part without opening brace, a group that opens with a brace and closes
    with one, and a part without closing brace: the match runs from the
    first opening brace to the last closing brace. It finds none exactly when
    no closing brace follows an opening one. *)
Theorem json_match_first_open_to_last_close (content : string) :
  (∀ g, IntentClassifier.json_match content = Some g ↔
        ∃ pre mid post,
          content = pre +:+ g +:+ post ∧
          g = "{" +:+ mid +:+ "}" ∧
          Str.contains "{" pre = false ∧
          Str.contains "}" post = false) ∧
  (IntentClassifier.json_match content = None ↔
   ¬ ∃ a b c, content = a +:+ "{" +:+ b +:+ "}" +:+ c).
Proof.
  assert (Hsome : ∀ g, IntentClassifier.json_match content = Some g ↔
        ∃ pre mid post,
          content = pre +:+ g +:+ post ∧
          g = "{" +:+ mid +:+ "}" ∧
          Str.contains "{" pre = false ∧
          Str.contains "}" post = false).
  { intros g. unfold IntentClassifier.json_match. split.
    - destruct (IntentClassifier.from_first_open content) as [s|] eqn:Hs; [|done].
      simpl. intros Hg.
      apply from_first_open_spec in Hs as (pre & rest & -> & -> & Hpre).
      apply upto_last_close_spec in Hg as (m & post & Hm & -> & Hpost).
      destruct m as [|x m].
      { rewrite app_empty_l in Hm. discriminate Hm. }
      rewrite app_cons in Hm. injection Hm as <- ->.
      exists pre, m, post. rewrite <- !app_assoc_string. repeat split; try done.
      by rewrite !app_assoc_string.
    - intros (pre & mid & post & -> & -> & Hpre & Hpost).
      rewrite (proj2 (from_first_open_spec _ (("{" +:+ mid +:+ "}") +:+ post))).
      + change (IntentClassifier.upto_last_close (("{" +:+ mid +:+ "}") +:+ post)
                = Some ("{" +:+ mid +:+ "}")).
        apply upto_last_close_spec. exists ("{" +:+ mid), post.
        by rewrite !app_assoc_string.
      + exists pre, ((mid +:+ "}") +:+ post). by rewrite !app_assoc_string. }
  split; [exact Hsome|].
  split.
  - intros Hnone (a & b & c & ->).
    assert (Ha : ∃ t u, IntentClassifier.from_first_open (a +:+ "{" +:+ b +:+ "}" +:+ c)
                         = Some t ∧ t = u +:+ "}" +:+ c).
    { clear. induction a as [|x a IH].
      - exists ("{" +:+ b +:+ "}" +:+ c), ("{" +:+ b). split; [done|].
        by rewrite !app_assoc_string.
      - rewrite app_cons. simpl.
        destruct (Ascii.eqb x "{"); [|exact IH].
        exists (String x (a +:+ "{" +:+ b +:+ "}" +:+ c)), (String x (a +:+ "{" +:+ b)).
        split; [done|]. by rewrite !app_cons, !app_assoc_string. }
    destruct Ha as (t & u & Ht & ->).
    unfold IntentClassifier.json_match in Hnone. rewrite Ht in Hnone. simpl in Hnone.
    apply upto_last_close_none in Hnone.
    rewrite contains_char_app in Hnone. apply orb_false_elim in Hnone as [_ Hnone].
    change ("}" +:+ c) with (String "}" c) in Hnone.
    rewrite contains_char_cons, Ascii.eqb_refl in Hnone. done.
  - intros Hno.
    destruct (IntentClassifier.json_match content) as [g|] eqn:Hg; [|done].
    destruct (proj1 (Hsome g) eq_refl) as (pre & mid & post & Hcontent & -> & _).
    destruct Hno. rewrite Hcontent. exists pre, mid, post. by rewrite !app_assoc_string.
Qed.

(** ** More on intent classification *)

Lemma last3_app {A} (older recent : list A) :
  length recent = 3%nat → IntentClassifier.last3 (older ++ recent)%list = recent.
Proof.
  intros Hlen. unfold IntentClassifier.last3.
  rewrite length_app, Hlen.
  replace (length older + 3 - 3)%nat with (length older) by lia.
  apply drop_app_length.
Qed.

(** X2. The context handed to the completion service depends on the last
    three history entries only: entries before them change nothing, and when
    none of the last three carries an intent the context is the fixed text
    "No previous context". *)
Theorem build_context_last_three
    (E : Env) (older recent : list HistoryEntry) :
  length recent = 3%nat →
  IntentClassifier.build_context E (older ++ recent)%list
    = IntentClassifier.build_context E recent ∧
  (Forall (λ entry, h_intent entry = None) recent →
   IntentClassifier.build_context E (older ++ recent)%list = "No previous context").
Proof.
  intros Hlen. unfold IntentClassifier.build_context.
  rewrite (last3_app older recent Hlen).
  assert (Hrecent : IntentClassifier.last3 recent = recent).
  { apply (last3_app [] recent Hlen). }
  rewrite Hrecent. split; [done|].
  intros Hnone.
  assert (Hparts : omap (IntentClassifier.context_part E) recent = []).
  { clear -Hnone. induction Hnone as [|entry recent Hentry _ IH]; [done|].
    simpl. unfold IntentClassifier.context_part at 1. by rewrite Hentry. }
  by rewrite Hparts.
Qed.

Lemma build_context_last_three_witness :
  IntentClassifier.build_context env_down
    ([mkHistoryEntry "old" (Some (mkSearchIntent ICD10 [] (JStr "old") (JStr "diagnosis"))) ""]
     ++ replicate 3 (mkHistoryEntry "q" None ""))%list
    = "No previous context".
Proof.
  apply (proj2 (build_context_last_three env_down
                  [mkHistoryEntry "old"
                     (Some (mkSearchIntent ICD10 [] (JStr "old") (JStr "diagnosis"))) ""]
                  (replicate 3 (mkHistoryEntry "q" None "")) eq_refl)).
  by repeat constructor.
Defined.

Lemma lower_char_upper_char (c : ascii) :
  Str.lower_char (Str.upper_char c) = Str.lower_char c.
Proof. by destruct c as [[] [] [] [] [] [] [] []]. Qed.

Lemma lower_char_idemp (c : ascii) :
  Str.lower_char (Str.lower_char c) = Str.lower_char c.
Proof. by destruct c as [[] [] [] [] [] [] [] []]. Qed.

Lemma lower_upper (s : string) : Str.lower (Str.upper s) = Str.lower s.
Proof.
  induction s as [|c s IH]; [done|].
  unfold Str.lower, Str.upper in *. simpl. by rewrite lower_char_upper_char, IH.
Qed.

Lemma lower_lower (s : string) : Str.lower (Str.lower s) = Str.lower s.
Proof.
  induction s as [|c s IH]; [done|].
  unfold Str.lower in *. simpl. by rewrite lower_char_idemp, IH.
Qed.

Lemma keyword_fallback_same_lower (q q' : string) :
  Str.lower q = Str.lower q' →
  same_classification (IntentClassifier._keyword_fallback q)
                      (IntentClassifier._keyword_fallback q').
Proof.
  intros Hlower. rewrite !keyword_fallback_rule.
  unfold keyword_rule. rewrite Hlower.
  by repeat case_match.
Qed.

Lemma keyword_rule_same_lower (q q' : string) :
  Str.lower q = Str.lower q' → keyword_rule q' = keyword_rule q.
Proof. intros Hlower. unfold keyword_rule. by rewrite Hlower. Qed.

(** X3. On a query of ASCII characters the keyword fallback is blind to
    letter case: the query, its upper-case form and its lower-case form reach
    the same rule, so they get the same primary system, secondary systems
    and concept type (or all three raise), each keeping its own text as
    refined query. *)
Theorem keyword_fallback_ignores_case (query form : string) :
  Str.is_ascii query = true →
  form ∈ [query; Str.upper query; Str.lower query] →
  keyword_rule form = keyword_rule query ∧
  same_classification (IntentClassifier._keyword_fallback query)
                      (IntentClassifier._keyword_fallback form) ∧
  IntentClassifier._keyword_fallback form =
    match keyword_rule query with
    | DiagnosisRule => Ok (mkSearchIntent ICD10 [] (JStr form) (JStr "diagnosis"))
    | LabRule => Ok (mkSearchIntent LOINC [] (JStr form) (JStr "lab"))
    | DrugRule => Raise AttributeError
    | DefaultRule => Ok (mkSearchIntent ICD10 [LOINC] (JStr form) (JStr "unknown"))
    end.
Proof.
  intros _ Hform.
  assert (Hlower : Str.lower query = Str.lower form).
  { repeat (apply elem_of_cons in Hform as [->|Hform]);
      [done|by rewrite lower_upper|by rewrite lower_lower|by apply elem_of_nil in Hform]. }
  split; [by apply keyword_rule_same_lower|].
  split; [by apply keyword_fallback_same_lower|].
  by rewrite keyword_fallback_rule, (keyword_rule_same_lower query form Hlower).
Qed.

Lemma keyword_fallback_ignores_case_witness :
  IntentClassifier._keyword_fallback "GLUCOSE TEST"
    = Ok (mkSearchIntent LOINC [] (JStr "GLUCOSE TEST") (JStr "lab")) ∧
  IntentClassifier._keyword_fallback "glucose test"
    = Ok (mkSearchIntent LOINC [] (JStr "glucose test") (JStr "lab")).
Proof.
  split.
  - refine (proj2 (proj2 (keyword_fallback_ignores_case
                            "Glucose Test" "GLUCOSE TEST" eq_refl _))).
    right. left.
  - refine (proj2 (proj2 (keyword_fallback_ignores_case
                            "Glucose Test" "glucose test" eq_refl _))).
    right. right. left.
Defined.

Lemma CodingSystem_of_value (c : CodingSystem) : CodingSystem_of (JStr (value c)) = Ok c.
Proof. by destruct c. Qed.

Lemma comprehension_system_names (systems : list CodingSystem) :
  comprehension CodingSystem_of ((λ s, JStr (value s)) <$> systems) = Ok systems.
Proof.
  induction systems as [|s systems IH]; [done|].
  rewrite fmap_cons. cbn [comprehension].
  by rewrite CodingSystem_of_value, IH.
Qed.

Lemma classify_body_object E query history content group fields :
  chain_invoke E query (IntentClassifier.build_context E history) = Ok content →
  IntentClassifier.json_match content = Some group →
  json_loads E group = Ok (JObj fields) →
  IntentClassifier.classify_body E query history =
    (primary ← match assoc "primary_system" fields with
               | Some v => CodingSystem_of v
               | None => Raise KeyError
               end;
     secondary ← (items ← iterate (from_option id (JArr [])
                                     (assoc "secondary_systems" fields));
                  comprehension CodingSystem_of items);
     Ok (mkSearchIntent primary secondary
           (from_option id (JStr query) (assoc "refined_query" fields))
           (from_option id (JStr "unknown") (assoc "concept_type" fields)))).
Proof.
  intros Hinvoke Hmatch Hloads. unfold IntentClassifier.classify_body.
  rewrite Hinvoke. cbn [mbind result_bind]. rewrite Hmatch, Hloads.
  cbn [mbind result_bind getitem get_default].
  destruct (assoc "primary_system" fields); reflexivity.
Qed.

(** X4. When the completion carries a JSON object whose primary system is
    the value of a member of the enumeration and whose secondary systems, if
    present, are a list of such values, [classify] returns exactly those
    members, in order and without removing duplicates or the primary; the
    refined query defaults to the query and the concept type to "unknown"
    when the object lacks them. *)
Theorem classify_accepts_recognized
    (E : Env) (query : string) (history : list HistoryEntry)
    (content group : string) (fields : list (string * json))
    (p : CodingSystem) (secs : list CodingSystem) :
  chain_invoke E query (IntentClassifier.build_context E history) = Ok content →
  IntentClassifier.json_match content = Some group →
  json_loads E group = Ok (JObj fields) →
  assoc "primary_system" fields = Some (JStr (value p)) →
  from_option id (JArr []) (assoc "secondary_systems" fields) = system_names secs →
  IntentClassifier.classify E query history =
    Ok (mkSearchIntent p secs
          (from_option id (JStr query) (assoc "refined_query" fields))
          (from_option id (JStr "unknown") (assoc "concept_type" fields))).
Proof.
  intros Hinvoke Hmatch Hloads Hprimary Hsecondary.
  apply classify_of_ok.
  rewrite (classify_body_object E query history content group fields) by done.
  rewrite Hprimary, CodingSystem_of_value, Hsecondary. unfold system_names.
  cbn [mbind result_bind iterate].
  by rewrite comprehension_system_names.
Qed.

Lemma classify_accepts_recognized_witness :
  IntentClassifier.classify env_refined "high cholesterol" [] =
    Ok (mkSearchIntent LOINC [ICD10] (JStr "lipid profile") (JStr "unknown")).
Proof.
  apply (classify_accepts_recognized env_refined "high cholesterol" [] "{...}" "{...}"
           [("primary_system", JStr "loinc");
            ("secondary_systems", JArr [JStr "icd10cm"]);
            ("refined_query", JStr "lipid profile")]
           LOINC [ICD10]); reflexivity.
Defined.

(** X5. [classify] gives what the keyword fallback gives for the query when
    the completion has no brace-delimited group in it, when the group does
    not decode, when the decoded object has no primary system, or when its
    secondary systems are null, a boolean, a number or a non-empty string
    instead of a list. *)
Theorem unusable_completion_falls_back
    (E : Env) (query : string) (history : list HistoryEntry) :
  Unusable E query (IntentClassifier.build_context E history) →
  IntentClassifier.classify E query history = IntentClassifier._keyword_fallback query.
Proof.
  intros Hbad.
  assert (∃ e, IntentClassifier.classify_body E query history = Raise e) as [e He];
    [|by eapply classify_of_raise].
  destruct Hbad as [content Hinvoke Hmatch
                   |content group e Hinvoke Hmatch Hloads
                   |content group fields Hinvoke Hmatch Hloads Hprimary
                   |content group fields v Hinvoke Hmatch Hloads Hsecondary Hv].
  - unfold IntentClassifier.classify_body.
    rewrite Hinvoke. cbn [mbind result_bind]. rewrite Hmatch. by eexists.
  - unfold IntentClassifier.classify_body.
    rewrite Hinvoke. cbn [mbind result_bind]. rewrite Hmatch, Hloads. by eexists.
  - rewrite (classify_body_object E query history content group fields) by done.
    rewrite Hprimary. by eexists.
  - rewrite (classify_body_object E query history content group fields) by done.
    destruct (match assoc "primary_system" fields with
              | Some v => CodingSystem_of v
              | None => Raise KeyError
              end); cbn [mbind result_bind]; [|by eexists].
    rewrite Hsecondary. cbn [from_option id].
    destruct Hv as [->|[[b ->]|[[q ->]|(c & s & ->)]]];
      cbn [iterate mbind result_bind]; try by eexists.
    cbn [Str.chars fmap list_fmap comprehension].
    rewrite (CodingSystem_of_unrecognized (JStr (String c ""))); [by eexists|].
    intros [m Hm]. destruct m; discriminate Hm.
Qed.

Lemma unusable_completion_falls_back_witness :
  IntentClassifier.classify env_prose "ataxia" []
    = IntentClassifier._keyword_fallback "ataxia".
Proof.
  apply (unusable_completion_falls_back env_prose "ataxia" []).
  by apply (NoObject env_prose "ataxia" _ "I cannot answer that.").
Defined.

(** X6. The classification node cannot fail and always sets an intent, and
    nothing else. When the classifier cannot be constructed or the completion
    call raises, the refined query of that intent is the user's query
    verbatim and its primary system is ICD-10, or LOINC for a query that
    reaches the lab rule. When the completion call raises on a query that
    reaches the drug rule, where [classify] itself raises, the intent is the
    node's own fallback: ICD-10, no secondary system, concept "unknown". *)
Theorem classify_intent_node_always_sets_intent
    (E : Env) (h : heap) (state : AgentState) :
  let query := user_query state in
  let context := IntentClassifier.build_context E (h !!! conversation_history state) in
  ∃ i,
    classify_intent_node E h state = mkUpdate (Some i) None None None None None ∧
    (((∃ e, get_llm E = Raise e) ∨ (∃ e, chain_invoke E query context = Raise e)) →
     refined_query i = JStr query ∧
     (primary_system i = ICD10 ∨
      (primary_system i = LOINC ∧ keyword_rule query = LabRule))) ∧
    ((∃ e, chain_invoke E query context = Raise e) →
     keyword_rule query = DrugRule →
     i = mkSearchIntent ICD10 [] (JStr query) (JStr "unknown")).
Proof.
  intros query context. unfold classify_intent_node. fold query.
  eexists. split; [reflexivity|].
  destruct (get_llm E) as [[]|e0] eqn:Hllm; simpl.
  - split.
    + intros [[e He]|[e He]]; [done|].
      rewrite (classify_of_raise E query _ e)
        by (unfold IntentClassifier.classify_body; fold context; by rewrite He).
      rewrite keyword_fallback_rule.
      destruct (keyword_rule query); simpl; split; auto.
    + intros [e He] Hrule.
      rewrite (classify_of_raise E query _ e)
        by (unfold IntentClassifier.classify_body; fold context; by rewrite He).
      by rewrite keyword_fallback_rule, Hrule.
  - split; [by intros _; split; [|left]|done].
Qed.

(** ** More on the adapter *)

Lemma all_bytes_app (P : ascii → bool) (a b : string) :
  all_bytes P (a +:+ b) = all_bytes P a && all_bytes P b.
Proof.
  induction a as [|c a IH]; [done|].
  rewrite app_cons. cbn [all_bytes]. by rewrite IH, andb_assoc.
Qed.

Local Ltac bytes_of_test H :=
  repeat match type of H with
         | (_ || _ = true) => apply orb_prop in H as [H|H]
         | (_ && _ = true) =>
             let H1 := fresh in let H2 := fresh in
             apply andb_prop in H as [H1 H2]; bytes_of_test H1; bytes_of_test H2
         | ((_ =? _)%N = true) => apply N.eqb_eq in H
         | ((_ <=? _)%N = true) => apply N.leb_le in H
         end.

Lemma space_byte_high (c : ascii) :
  (128 ≤ Ascii.N_of_ascii c)%N → space_byte c = true.
Proof.
  intros Hc. unfold space_byte.
  rewrite (proj2 (N.leb_le _ _) Hc). apply orb_true_r.
Qed.

Lemma is_space2_bytes (a b : ascii) :
  Str.is_space2 a b = true → space_byte a = true ∧ space_byte b = true.
Proof.
  unfold Str.is_space2. intros H. cbv zeta in H.
  split; apply space_byte_high; bytes_of_test H; lia.
Qed.

Lemma is_space3_bytes (a b c : ascii) :
  Str.is_space3 a b c = true →
  space_byte a = true ∧ space_byte b = true ∧ space_byte c = true.
Proof.
  unfold Str.is_space3. intros H. cbv zeta in H.
  repeat split; apply space_byte_high; bytes_of_test H; lia.
Qed.

(** A blank text is made of white-space bytes only. *)
Lemma blank_bytes (s : string) : Str.blank s = true → all_bytes space_byte s = true.
Proof.
  assert (H : ∀ n s, (String.length s ≤ n)%nat →
                     Str.blank s = true → all_bytes space_byte s = true);
    [|by apply (H (String.length s))].
  clear s. induction n as [|n IH]; intros s Hlen Hblank.
  - destruct s; [done|]. cbn [String.length] in Hlen. lia.
  - destruct s as [|a s1]; [done|].
    cbn [String.length] in Hlen. cbn [Str.blank] in Hblank.
    destruct (Str.is_space a) eqn:Ha.
    { cbn [all_bytes]. unfold space_byte at 1. rewrite Ha.
      apply IH; [lia|done]. }
    destruct s1 as [|b s2]; [done|]. cbn [String.length] in Hlen.
    destruct (Str.is_space2 a b) eqn:Hab.
    { apply is_space2_bytes in Hab as [Hsa Hsb].
      cbn [all_bytes]. rewrite Hsa, Hsb. apply IH; [lia|done]. }
    destruct s2 as [|c s3]; [done|]. cbn [String.length] in Hlen.
    apply andb_prop in Hblank as [Habc Hs3].
    apply is_space3_bytes in Habc as (Hsa & Hsb & Hsc).
    cbn [all_bytes]. rewrite Hsa, Hsb, Hsc. apply IH; [lia|done].
Qed.

Lemma synthesized_not_blank (a b : string) : Str.blank (a +:+ ": " +:+ b) = false.
Proof.
  destruct (Str.blank (a +:+ ": " +:+ b)) eqn:Hblank; [|done].
  apply blank_bytes in Hblank. rewrite all_bytes_app in Hblank.
  apply andb_prop in Hblank as [_ Hblank].
  change (": " +:+ b) with (String ":" (String " " b)) in Hblank.
  cbn [all_bytes] in Hblank. by change (space_byte ":") with false in Hblank.
Qed.

(** What one pass of the loop makes of a row it keeps. *)
Lemma normalize_item_shape E endpoint item r :
  ClinicalTablesAPI.normalize_item E (ClinicalTablesAPI.config_for endpoint) endpoint item
    = Ok (Some r) →
  let synthesized := upper_text E endpoint +:+ ": " +:+ format_value E (code r) in
  system r = endpoint ∧
  ∃ d rest,
    item = JArr (code r :: d :: rest) ∧
    match d with
    | JStr s => display r = if Str.blank s then synthesized else s
    | _ => truthy d = false ∧ display r = synthesized
    end.
Proof.
  destruct (config_for_layout endpoint) as (_ & Hcode & Hdisplay).
  unfold ClinicalTablesAPI.normalize_item. rewrite Hcode, Hdisplay.
  destruct item as [| | | |fields|]; try done.
  case_bool_decide; [|done].
  destruct fields as [|c [|d rest]]; try done.
  cbn [subscript lookup list_lookup mbind result_bind].
  destruct (truthy d) eqn:Htruthy; cbn [negb].
  - destruct d as [| | |s| |]; try done.
    cbn [mbind result_bind]. intros [= <-]. cbn [display code system].
    split; [done|]. by exists (JStr s), rest.
  - cbn [mbind result_bind]. intros [= <-]. cbn [display code system].
    split; [done|]. exists d, rest. split; [done|].
    destruct d as [| | |s| |]; try done.
    destruct s; [done|discriminate Htruthy].
Qed.

Lemma normalize_item_display E endpoint item r :
  ClinicalTablesAPI.normalize_item E (ClinicalTablesAPI.config_for endpoint) endpoint item
    = Ok (Some r) →
  Str.blank (display r) = false.
Proof.
  intros Hitem. apply normalize_item_shape in Hitem. cbv zeta in Hitem.
  destruct Hitem as (_ & d & rest & _ & Hd).
  destruct d as [| | |s| |];
    try match type of Hd with
        | _ ∧ _ => destruct Hd as [_ ->]; apply synthesized_not_blank
        end.
  rewrite Hd. destruct (Str.blank s) eqn:Hs; [apply synthesized_not_blank|done].
Qed.

Lemma normalize_rows_shape E endpoint rows results :
  ClinicalTablesAPI.normalize_rows E (ClinicalTablesAPI.config_for endpoint) endpoint rows
    = Ok results →
  Forall (λ r, ∃ item, item ∈ rows ∧
               ClinicalTablesAPI.normalize_item E (ClinicalTablesAPI.config_for endpoint)
                                                endpoint item = Ok (Some r)) results.
Proof.
  revert results. induction rows as [|item rest IH]; intros results H.
  - cbn in H. simplify_eq. constructor.
  - cbn [ClinicalTablesAPI.normalize_rows] in H.
    destruct (ClinicalTablesAPI.normalize_item E _ endpoint item) as [r|] eqn:Hitem;
      [|done].
    cbn [mbind result_bind] in H.
    destruct (ClinicalTablesAPI.normalize_rows E _ endpoint rest) as [rs|] eqn:Hrest;
      [|done].
    cbn [mbind result_bind] in H. simplify_eq.
    assert (Hrest' : Forall (λ r, ∃ item', item' ∈ item :: rest ∧
                         ClinicalTablesAPI.normalize_item
                           E (ClinicalTablesAPI.config_for endpoint) endpoint item'
                           = Ok (Some r)) rs).
    { eapply Forall_impl; [by apply IH|].
      intros r' (item' & Hin & Hr'). exists item'. split; [by right|done]. }
    destruct r as [r|]; cbn [option_list app]; [|done].
    constructor; [|done]. exists item. split; [left|done].
Qed.

(** The body of [search] on a response with the expected envelope. *)
Lemma search_body_envelope E endpoint outcome rows :
  response_rows outcome = Some rows →
  ClinicalTablesAPI.search_body E (ClinicalTablesAPI.config_for endpoint) endpoint outcome
    = ClinicalTablesAPI.normalize_rows E (ClinicalTablesAPI.config_for endpoint)
                                       endpoint rows.
Proof.
  destruct (config_for_layout endpoint) as (Hindex & _ & _).
  unfold response_rows, ClinicalTablesAPI.search_body.
  destruct outcome as [|status [[| | | |data|]|]]; try done.
  destruct (400 <=? status)%Z; [done|].
  destruct (data !! 3%nat) as [[| | | |items|]|] eqn:Hdata; try done.
  intros [= <-]. cbn [mbind result_bind].
  unfold ClinicalTablesAPI.parse_data. rewrite Hindex.
  cbn [py_len mbind result_bind].
  rewrite bool_decide_true by (by eapply lookup_lt_Some).
  cbn [subscript]. by rewrite Hdata.
Qed.

(** X7. No result the adapter returns has an empty or blank display text.
    Every result comes from a row of the response, an array that starts with
    the result's code and a display field: the display text of the result is
    that field when it is a string that is not blank, and otherwise (the
    field is a blank or empty string, or null, false, zero or an empty list
    or object) the upper-cased endpoint, a colon and a space, and the
    code. *)
Theorem search_display_never_blank
    (E : Env) (endpoint : string) (query : json) (limit : Z) (sent sent' : list Request)
    (results : list CodeResult) :
  ClinicalTablesAPI.search E endpoint query limit sent = (Ok results, sent') →
  Forall (λ r,
    let synthesized := upper_text E endpoint +:+ ": " +:+ format_value E (code r) in
    Str.blank (display r) = false ∧ display r ≠ "" ∧ system r = endpoint ∧
    ∃ rows d rest,
      response_rows
        (session_get E sent
           (ClinicalTablesAPI.build_request (ClinicalTablesAPI.config_for endpoint)
                                            endpoint query limit)) = Some rows ∧
      JArr (code r :: d :: rest) ∈ rows ∧
      match d with
      | JStr s => display r = if Str.blank s then synthesized else s
      | _ => truthy d = false ∧ display r = synthesized
      end) results.
Proof.
  intros Hsearch.
  destruct (ClinicalTablesAPI.int_str_ok limit) eqn:Hok;
    [|by rewrite (proj1 (search_raises_before_sending E endpoint query limit sent Hok))
        in Hsearch].
  rewrite (search_sends E endpoint query limit sent Hok) in Hsearch. cbv zeta in Hsearch.
  injection Hsearch as <- _.
  pose proof (search_body_rows E endpoint
                (session_get E sent
                   (ClinicalTablesAPI.build_request (ClinicalTablesAPI.config_for endpoint)
                                                    endpoint query limit))) as [_ Hnone].
  cbv zeta in Hnone.
  destruct (response_rows _) as [rows|] eqn:Hrows; [|rewrite Hnone; constructor].
  rewrite (search_body_envelope E endpoint _ rows Hrows).
  destruct (ClinicalTablesAPI.normalize_rows E _ endpoint rows) as [results|e] eqn:Hnorm;
    cbn [try_return]; [|constructor].
  eapply Forall_impl; [exact (normalize_rows_shape E endpoint rows results Hnorm)|].
  intros r (item & Hin & Hitem). cbv zeta.
  pose proof (normalize_item_display E endpoint item r Hitem) as Hblank.
  apply normalize_item_shape in Hitem as (Hsys & d & rest & -> & Hd).
  split; [exact Hblank|].
  split; [intros Hempty; by rewrite Hempty in Hblank|].
  split; [exact Hsys|]. by exists rows, d, rest.
Qed.

Lemma search_display_never_blank_witness :
  Forall (λ r, Str.blank (display r) = false ∧ display r ≠ "")
         [mkCodeResult (JStr "4548-4") "LOINC_ITEMS: 4548-4" "loinc_items";
          mkCodeResult (JStr "17856-6") "LOINC_ITEMS: 17856-6" "loinc_items";
          mkCodeResult (JStr "41995-2") "LOINC_ITEMS: 41995-2" "loinc_items";
          mkCodeResult (JStr "4549-2") "Hemoglobin A1c" "loinc_items"].
Proof.
  eapply Forall_impl.
  - exact (search_display_never_blank env_blank_display "loinc_items" (JStr "hba1c") 10
             [] _ _ eq_refl).
  - intros r (Hblank & Hempty & _). by split.
Defined.

Lemma normalize_item_unstrippable E endpoint item :
  unstrippable_row item = true →
  ClinicalTablesAPI.normalize_item E (ClinicalTablesAPI.config_for endpoint) endpoint item
    = Raise AttributeError.
Proof.
  destruct (config_for_layout endpoint) as (_ & Hcode & Hdisplay).
  unfold unstrippable_row, ClinicalTablesAPI.normalize_item. rewrite Hcode, Hdisplay.
  destruct item as [| | | |[|c [|d rest]]|]; try done.
  intros [Htruthy Hd]%andb_prop.
  rewrite bool_decide_true by (simpl; lia).
  cbn [subscript lookup list_lookup mbind result_bind].
  rewrite Htruthy. cbn [negb]. by destruct d.
Qed.

Lemma normalize_rows_unstrippable E endpoint rows :
  Exists (λ item, unstrippable_row item = true) rows →
  ∃ e, ClinicalTablesAPI.normalize_rows E (ClinicalTablesAPI.config_for endpoint)
                                        endpoint rows = Raise e.
Proof.
  induction 1 as [item rest Hitem|item rest _ [e IH]];
    cbn [ClinicalTablesAPI.normalize_rows].
  - rewrite (normalize_item_unstrippable E endpoint item Hitem). by eexists.
  - destruct (ClinicalTablesAPI.normalize_item E _ endpoint item);
      cbn [mbind result_bind]; [|by eexists].
    rewrite IH. by eexists.
Qed.

Lemma normalize_item_plain E endpoint item c d :
  plain_row item = Some (c, d) →
  ClinicalTablesAPI.normalize_item E (ClinicalTablesAPI.config_for endpoint) endpoint item
    = Ok (Some (mkCodeResult c d endpoint)).
Proof.
  destruct (config_for_layout endpoint) as (_ & Hcode & Hdisplay).
  unfold plain_row, ClinicalTablesAPI.normalize_item. rewrite Hcode, Hdisplay.
  destruct item as [| | | |[|c' [|[| | |s| |] rest]]|]; try done.
  destruct (Str.blank s) eqn:Hs; [done|]. intros [= <- <-].
  rewrite bool_decide_true by (simpl; lia).
  cbn [subscript lookup list_lookup mbind result_bind].
  assert (Htruthy : truthy (JStr s) = true) by (by destruct s).
  rewrite Htruthy. cbn [negb mbind result_bind]. by rewrite Hs.
Qed.

(** X8. One row is enough to lose a whole response: when a response with
    the expected envelope has a row of two or more fields whose display is a
    true value other than a string (a non-zero number, [true], a non-empty
    list or object), [search] returns no result at all, whatever the other
    rows are. (With a limit of more than 4300 digits the request is not even
    built, and [search] raises before it could get a response.) *)
Theorem search_loses_all_on_unstrippable_display
    (E : Env) (endpoint : string) (query : json) (limit : Z) (sent : list Request)
    (rows : list json) :
  let request :=
    ClinicalTablesAPI.build_request (ClinicalTablesAPI.config_for endpoint)
                                    endpoint query limit in
  response_rows (session_get E sent request) = Some rows →
  Exists (λ item, unstrippable_row item = true) rows →
  ClinicalTablesAPI.search E endpoint query limit sent
    = if ClinicalTablesAPI.int_str_ok limit
      then (Ok [], (sent ++ [request])%list)
      else (Raise ValueError, sent).
Proof.
  intros request Hrows Hbad.
  destruct (ClinicalTablesAPI.int_str_ok limit) eqn:Hok;
    [|by apply search_raises_before_sending].
  rewrite (search_sends E endpoint query limit sent Hok). cbv zeta. fold request.
  rewrite (search_body_envelope E endpoint _ rows Hrows).
  by destruct (normalize_rows_unstrippable E endpoint rows Hbad) as [e ->].
Qed.

Lemma search_loses_all_on_unstrippable_display_witness :
  ClinicalTablesAPI.search env_bad_display "icd10cm" (JStr "diabetes") 10 []
    = (Ok [], [mkRequest "icd10cm" "code,name" "code,name" 10 (JStr "diabetes")]).
Proof.
  apply (search_loses_all_on_unstrippable_display env_bad_display "icd10cm"
           (JStr "diabetes") 10 []
           [row "E11" "Type 2 diabetes mellitus"; JArr [JStr "E10"; JNum 7]]).
  - reflexivity.
  - right. left. reflexivity.
Defined.

(** X9. With a limit of at most 4300 digits, when every row of a response
    with the expected envelope is an array of at least two fields whose
    second field is a string that is not blank, [search] returns exactly one
    result per row, in the order of the rows: the code is the first field,
    unchanged, the display is the second, and the system is the endpoint. *)
Theorem search_normalizes_plain_rows
    (E : Env) (endpoint : string) (query : json) (limit : Z) (sent : list Request)
    (rows : list json) :
  let request :=
    ClinicalTablesAPI.build_request (ClinicalTablesAPI.config_for endpoint)
                                    endpoint query limit in
  ClinicalTablesAPI.int_str_ok limit = true →
  response_rows (session_get E sent request) = Some rows →
  Forall (λ item, is_Some (plain_row item)) rows →
  ∃ results,
    ClinicalTablesAPI.search E endpoint query limit sent
      = (Ok results, (sent ++ [request])%list) ∧
    Forall2 (λ item r, plain_row item = Some (code r, display r) ∧ system r = endpoint)
            rows results.
Proof.
  intros request Hok Hrows Hplain.
  rewrite (search_sends E endpoint query limit sent Hok). cbv zeta. fold request.
  rewrite (search_body_envelope E endpoint _ rows Hrows).
  clear Hrows.
  assert (∃ results,
            ClinicalTablesAPI.normalize_rows E (ClinicalTablesAPI.config_for endpoint)
                                             endpoint rows = Ok results ∧
            Forall2 (λ item r, plain_row item = Some (code r, display r) ∧
                               system r = endpoint) rows results)
    as (results & -> & Hresults); [|by exists results].
  induction Hplain as [|item rest [[c d] Hitem] _ (results & IH & Hresults)].
  - exists []. by split; [|constructor].
  - exists (mkCodeResult c d endpoint :: results).
    cbn [ClinicalTablesAPI.normalize_rows].
    rewrite (normalize_item_plain E endpoint item c d Hitem), IH.
    split; [reflexivity|]. by constructor.
Qed.

Lemma search_normalizes_plain_rows_witness :
  ∃ results,
    ClinicalTablesAPI.search env_two_rows "hcpcs" (JStr "wheelchair") 5 []
      = (Ok results,
         [mkRequest "hcpcs" "code,short_desc,long_desc" "code,display" 5
                    (JStr "wheelchair")]) ∧
    Forall2 (λ item r, plain_row item = Some (code r, display r) ∧ system r = "hcpcs")
            [row "E11" "Type 2 diabetes mellitus"; row "E10" "Type 1 diabetes mellitus"]
            results.
Proof.
  apply (search_normalizes_plain_rows env_two_rows "hcpcs" (JStr "wheelchair") 5 []).
  - reflexivity.
  - reflexivity.
  - repeat constructor; by eexists.
Defined.

(** X10. Every vocabulary has an endpoint, none is empty, no two vocabularies
    share one and each is a key of the adapter's configuration table, so a
    search issued by the pipeline never falls back to the ICD-10 fields of
    another vocabulary. With a limit of at most 4300 digits the search of a
    vocabulary sends one request, built from the configuration of its own
    endpoint, and returns what the adapter parses from the response, or no
    result when the adapter fails; with a longer limit the adapter raises
    before sending and the helper returns no result, with nothing sent. The
    results of a vocabulary carry its endpoint as system, which differs from
    the vocabulary's own value (the key under which dispatch stores them)
    for LOINC and RXNORM only. *)
Theorem every_vocabulary_has_a_configured_endpoint
    (E : Env) (s : CodingSystem) (query : json) (limit : Z) (sent : list Request) :
  ∃ endpoint config,
    endpoint_map s = Some endpoint ∧
    endpoint ≠ "" ∧
    ClinicalTablesAPI.API_CONFIG !! endpoint = Some config ∧
    ClinicalTablesAPI.config_for endpoint = config ∧
    (∀ s', endpoint_map s' = Some endpoint → s' = s) ∧
    (endpoint = value s ↔ s ≠ LOINC ∧ s ≠ RXNORM) ∧
    (let request := mkRequest endpoint (ClinicalTablesAPI.search_fields config)
                              (ClinicalTablesAPI.display_fields config) limit query in
     _search_system E s query limit sent
       = if ClinicalTablesAPI.int_str_ok limit
         then (try_return (ClinicalTablesAPI.search_body E config endpoint
                             (session_get E sent request)) [],
               (sent ++ [request])%list)
         else ([], sent)) ∧
    Forall (λ r, system r = endpoint) (_search_system E s query limit sent).1.
Proof.
  exists (endpoint_of s), (ClinicalTablesAPI.config_for (endpoint_of s)).
  split; [by destruct s|].
  split; [by destruct s|].
  split; [destruct s; by vm_compute|].
  split; [done|].
  split; [by destruct s; intros []; intros [=]|].
  split; [destruct s; (split; [by intros [=]|by intros [??]])|].
  destruct (ClinicalTablesAPI.int_str_ok limit) eqn:Hok.
  - rewrite (_search_system_search E s query limit sent Hok). cbv zeta.
    split; [reflexivity|]. cbn [fst]. apply (search_body_rows E (endpoint_of s)).
  - rewrite (proj2 (search_raises_before_sending E (endpoint_of s) query limit sent Hok) s).
    split; [reflexivity|constructor].
Qed.

(** ** More on dispatch *)

Lemma search_primary_node_spec E state sent i :
  intent state = Some i →
  let answer := _search_system E (primary_system i) (refined_query i) 10 sent in
  search_primary_node E state sent =
    (Ok (mkUpdate None
           (Some (api_calls_made state ++
                  [mkApiCall (value (primary_system i)) (refined_query i)
                             (length answer.1)])%list)
           (Some (<[value (primary_system i) := answer.1]> (raw_results state)))
           None None None),
     answer.2).
Proof.
  intros Hi. unfold search_primary_node, the_intent. rewrite Hi.
  by destruct (_search_system E (primary_system i) (refined_query i) 10 sent).
Qed.

Lemma search_secondary_node_spec E state sent i :
  intent state = Some i →
  let answers :=
    secondary_answers E (take 3 (secondary_systems i)) (refined_query i) sent in
  search_secondary_node E state sent =
    (Ok (mkUpdate None
           (Some (api_calls_made state ++ (audit_record (refined_query i) <$> answers))%list)
           (Some (foldl store_answer (raw_results state) answers))
           None None None),
     (sent ++ (secondary_request (refined_query i) <$> take 3 (secondary_systems i)))%list).
Proof.
  intros Hi. unfold search_secondary_node, the_intent. rewrite Hi.
  by rewrite secondary_loop_spec.
Qed.

Lemma foldl_store_answer_keeps answers raw k :
  is_Some (raw !! k) → is_Some (foldl store_answer raw answers !! k).
Proof.
  revert raw. induction answers as [|[s rs] rest IH]; intros raw Hk; [done|].
  simpl. apply IH. unfold store_answer. simpl.
  destruct rs as [|r rs]; [done|].
  destruct (decide (value s = k)) as [<-|Hne].
  - rewrite lookup_insert_eq. by eexists.
  - by rewrite lookup_insert_ne.
Qed.

Lemma foldl_store_answer_lookup answers raw k rs :
  foldl store_answer raw answers !! k = Some rs →
  raw !! k = Some rs ∨ (rs ≠ [] ∧ ∃ s, (s, rs) ∈ answers ∧ k = value s).
Proof.
  revert raw. induction answers as [|[s rs'] rest IH]; intros raw Hk; [by left|].
  simpl in Hk. apply IH in Hk as [Hk|(Hne & s' & Hin & ->)].
  - unfold store_answer in Hk. simpl in Hk.
    destruct rs' as [|r rs']; [by left|].
    destruct (decide (value s = k)) as [<-|Hne].
    + rewrite lookup_insert_eq in Hk. injection Hk as <-.
      right. split; [done|]. exists s. split; [left|done].
    + rewrite lookup_insert_ne in Hk by done. by left.
  - right. split; [done|]. exists s'. split; [by right|done].
Qed.

(** X11. In a state whose intent is resolved, primary dispatch sends exactly
    one request, to the endpoint of the primary vocabulary, with the refined
    query and limit 10; it appends exactly one audit record, whose count is
    the length of the list it stores; it stores that list under the primary
    vocabulary's key, replacing what was there, and leaves every other key
    of the raw results and every other field of the state alone. *)
Theorem search_primary_node_one_request
    (E : Env) (state : AgentState) (sent : list Request) (i : SearchIntent) :
  intent state = Some i →
  ∃ u raw results,
    search_primary_node E state sent
      = (Ok u, (sent ++ [mkRequest (endpoint_of (primary_system i))
                           (ClinicalTablesAPI.search_fields
                              (ClinicalTablesAPI.config_for (endpoint_of (primary_system i))))
                           (ClinicalTablesAPI.display_fields
                              (ClinicalTablesAPI.config_for (endpoint_of (primary_system i))))
                           10 (refined_query i)])%list) ∧
    u = mkUpdate None
          (Some (api_calls_made state ++
                 [mkApiCall (value (primary_system i)) (refined_query i) (length results)])%list)
          (Some raw) None None None ∧
    raw !! value (primary_system i) = Some results ∧
    (∀ k, k ≠ value (primary_system i) → raw !! k = raw_results state !! k).
Proof.
  intros Hi. rewrite (search_primary_node_spec E state sent i Hi). cbv zeta.
  rewrite _search_system_sent by apply int_str_ok_10.
  eexists _, _, _. split; [reflexivity|]. split; [reflexivity|].
  split; [apply lookup_insert_eq|].
  intros k Hk. by apply lookup_insert_ne.
Qed.

Lemma search_primary_node_one_request_witness :
  ∃ u raw results,
    search_primary_node env_two_rows state_four_secondary []
      = (Ok u, [mkRequest "icd10cm" "code,name" "code,name" 10 (JStr "diabetes")]) ∧
    u = mkUpdate None (Some [mkApiCall "icd10cm" (JStr "diabetes") (length results)])
                 (Some raw) None None None ∧
    raw !! "icd10cm" = Some results ∧
    (∀ k, k ≠ "icd10cm" → raw !! k = (∅ : gmap string (list CodeResult)) !! k).
Proof.
  exact (search_primary_node_one_request env_two_rows state_four_secondary [] _ eq_refl).
Defined.

Lemma store_answer_lookup raw answer k :
  store_answer raw answer !! k = if stores k answer then Some answer.2 else raw !! k.
Proof.
  unfold store_answer, stores. destruct answer as [s rs]. cbn [fst snd].
  destruct rs as [|r rs]; cbn [length].
  - rewrite (bool_decide_true (0%nat = 0%nat)) by done.
    by rewrite andb_false_r.
  - rewrite (bool_decide_false (S (length rs) = 0%nat)) by done.
    rewrite andb_true_r. case_bool_decide as Hk.
    + subst k. apply lookup_insert_eq.
    + by apply lookup_insert_ne.
Qed.

(** What the secondary loop leaves under a key: the last answer stored under
    it, or what was there before when there is none. *)
Lemma foldl_store_answer_last answers raw k :
  foldl store_answer raw answers !! k =
    match last (filter (λ answer, stores k answer = true) answers).*2 with
    | Some rs => Some rs
    | None => raw !! k
    end.
Proof.
  revert raw. induction answers as [|answer rest IH]; intros raw; [done|].
  cbn [foldl]. rewrite IH, store_answer_lookup, filter_cons.
  destruct (stores k answer); [|by rewrite decide_False].
  rewrite decide_True by done. rewrite fmap_cons, last_cons.
  by destruct (last _).
Qed.

(** X12. In a state whose intent is resolved, secondary dispatch writes the
    audit trail and the raw results only, and never removes a key from the
    raw results. Under each key it leaves the results of the last search,
    among those of the first three secondary vocabularies, that was made for
    the vocabulary of that key and returned at least one result; where there
    is no such search, it leaves what was there before. So it stores no
    empty list, every list it stores is one that a search returned, and a
    secondary vocabulary whose search returns results has them stored under
    its key even where the key already had a list: a secondary vocabulary
    equal to the primary one overwrites the primary results. *)
Theorem search_secondary_node_stores_only_results
    (E : Env) (state : AgentState) (sent : list Request) (i : SearchIntent) :
  intent state = Some i →
  let answers :=
    secondary_answers E (take 3 (secondary_systems i)) (refined_query i) sent in
  ∃ calls raw sent',
    search_secondary_node E state sent
      = (Ok (mkUpdate None (Some calls) (Some raw) None None None), sent') ∧
    (∀ k, is_Some (raw_results state !! k) → is_Some (raw !! k)) ∧
    (∀ k rs, raw !! k = Some rs →
       raw_results state !! k = Some rs ∨
       (rs ≠ [] ∧
        ∃ s, s ∈ take 3 (secondary_systems i) ∧ k = value s ∧ (s, rs) ∈ answers)) ∧
    (∀ k, raw !! k =
       match last (filter (λ answer, stores k answer = true) answers).*2 with
       | Some rs => Some rs
       | None => raw_results state !! k
       end) ∧
    (∀ s rs, (s, rs) ∈ answers → rs ≠ [] →
       (∀ rs', (s, rs') ∈ answers → rs' = rs) →
       raw !! value s = Some rs).
Proof.
  intros Hi answers. rewrite (search_secondary_node_spec E state sent i Hi). cbv zeta.
  fold answers.
  eexists _, _, _. split; [reflexivity|]. split; [|split; [|split]].
  - intros k. apply foldl_store_answer_keeps.
  - intros k rs Hk.
    apply foldl_store_answer_lookup in Hk as [Hk|(Hne & s & Hin & ->)]; [by left|].
    right. split; [done|]. exists s. split; [|done].
    rewrite <- (secondary_answers_systems E (take 3 (secondary_systems i))
                  (refined_query i) sent).
    apply list_elem_of_fmap. by exists (s, rs).
  - intros k. apply foldl_store_answer_last.
  - intros s rs Hin Hne Hall. rewrite foldl_store_answer_last.
    destruct (last _) as [rs'|] eqn:Hlast.
    + apply last_Some_elem_of, list_elem_of_fmap in Hlast as ([s' rs''] & -> & Hstored).
      apply list_elem_of_filter in Hstored as [Hstores Hin'].
      unfold stores in Hstores. apply andb_prop in Hstores as [Hkey _].
      apply bool_decide_eq_true in Hkey. cbn [fst snd] in *.
      apply (inj value) in Hkey. subst s'. f_equal. by apply Hall.
    + apply last_None, fmap_nil_inv in Hlast.
      assert (Hstored : (s, rs) ∈ filter (λ answer, stores (value s) answer = true) answers).
      { apply list_elem_of_filter. split; [|done].
        unfold stores. cbn [fst snd]. rewrite bool_decide_true by done.
        destruct rs; [done|]. by rewrite bool_decide_false. }
      rewrite Hlast in Hstored. by apply elem_of_nil in Hstored.
Qed.

Lemma search_secondary_node_stores_only_results_witness :
  raw_results state_primary_again !! "icd10cm"
    = Some [mkCodeResult (JStr "E13") "Other specified diabetes mellitus" "icd10cm"] ∧
  ∃ calls raw sent',
    search_secondary_node env_two_rows state_primary_again []
      = (Ok (mkUpdate None (Some calls) (Some raw) None None None), sent') ∧
    raw !! "icd10cm"
      = Some [mkCodeResult (JStr "E11") "Type 2 diabetes mellitus" "icd10cm";
              mkCodeResult (JStr "E10") "Type 1 diabetes mellitus" "icd10cm"].
Proof.
  split; [reflexivity|].
  destruct (search_secondary_node_stores_only_results
              env_two_rows state_primary_again [] _ eq_refl)
    as (calls & raw & sent' & Hnode & _ & _ & Hlast & _).
  exists calls, raw, sent'. split; [exact Hnode|].
  rewrite Hlast. vm_compute. reflexivity.
Defined.

(** ** More on the aggregator *)

Lemma confidence_bounds (results : list CodeResult) :
  results ≠ [] →
  (0 < confidence results)%Q ∧ (confidence results <= 1)%Q ∧
  ((confidence results == 1)%Q ↔ (10 ≤ length results)%nat).
Proof.
  intros Hne.
  assert (Hlen : (0 < length results)%nat) by (destruct results; [done|simpl; lia]).
  unfold confidence, py_min.
  destruct (Qle_bool (Z.of_nat (length results) # 10) 1) eqn:Hle.
  - apply Qle_bool_iff in Hle.
    split; [unfold Qlt; simpl; lia|]. split; [exact Hle|].
    unfold Qle in Hle. unfold Qeq. simpl in *. lia.
  - assert (Hgt : ¬ (Z.of_nat (length results) # 10 <= 1)%Q).
    { intros H. apply Qle_bool_iff in H. congruence. }
    split; [done|]. split; [apply Qle_refl|].
    split; [|reflexivity]. intros _. unfold Qle in Hgt. simpl in Hgt. lia.
Qed.

(** X13. Whatever the raw results, the count-based aggregator writes the
    filtered results and the confidence scores only, over the same keys,
    all of them keys of the raw results. Every filtered list is a non-empty
    prefix of at most five of the raw list under its key, and every
    confidence is above 0 and at most 1, reaching 1 exactly when the raw list
    has ten results or more. *)
Theorem aggregate_results_node_bounds (state : AgentState) :
  ∃ filtered scores,
    aggregate_results_node state
      = mkUpdate None None None (Some filtered) None (Some scores) ∧
    dom filtered = dom scores ∧
    dom filtered ⊆ dom (raw_results state) ∧
    (∀ k rs, filtered !! k = Some rs →
       rs ≠ [] ∧ (length rs ≤ 5)%nat ∧
       ∃ raw, raw_results state !! k = Some raw ∧ rs `prefix_of` raw) ∧
    (∀ k c, scores !! k = Some c →
       (0 < c)%Q ∧ (c <= 1)%Q ∧
       ∃ raw, raw_results state !! k = Some raw ∧
              ((c == 1)%Q ↔ (10 ≤ length raw)%nat)).
Proof.
  eexists _, _. split; [apply aggregate_results_node_fields|].
  set (acc := map_fold aggregate_step (∅, ∅) (raw_results state)).
  assert (Hf : ∀ k, acc.1 !! k = raw_results state !! k ≫= kept)
    by (intros k; apply aggregate_fold_lookup).
  assert (Hs : ∀ k, acc.2 !! k = raw_results state !! k ≫= scored)
    by (intros k; apply aggregate_fold_lookup).
  split; [|split; [|split]].
  - apply set_eq. intros k. rewrite !elem_of_dom, Hf, Hs.
    destruct (raw_results state !! k) as [[|r rs]|]; simpl; split; intros [? ?]; done.
  - intros k. rewrite !elem_of_dom, Hf.
    destruct (raw_results state !! k) as [raw|]; simpl; [by eauto|by intros [? ?]].
  - intros k rs. rewrite Hf.
    destruct (raw_results state !! k) as [[|r raw]|]; simpl; try done.
    intros [= <-]. split; [done|]. split.
    + simpl. rewrite length_take. lia.
    + eexists. split; [done|].
      change (take 5 (r :: raw) `prefix_of` r :: raw). apply prefix_take.
  - intros k c. rewrite Hs.
    destruct (raw_results state !! k) as [[|r raw]|]; simpl; try done.
    intros [= <-].
    destruct (confidence_bounds (r :: raw)) as (Hpos & Hle & Hone); [done|].
    split; [exact Hpos|]. split; [exact Hle|]. by eexists.
Qed.

(** ** More on the controller *)

Lemma summarize_results_node_shape E state u :
  summarize_results_node E state = Ok u →
  ∃ i text,
    intent state = Some i ∧
    summarizer_summarize E (user_query state) (filtered_results state) i
                         (confidence_scores state) = Ok text ∧
    u = mkUpdate None None None None (Some text) None.
Proof.
  unfold summarize_results_node, the_intent. intros H.
  destruct (get_llm E); simplify_eq/=.
  destruct (intent state) as [i|]; simplify_eq/=.
  destruct (summarizer_summarize E _ _ _ _) as [text|] eqn:Htext; simplify_eq/=.
  by exists i, text.
Qed.

Lemma ainvoke_after_aggregate E h initial_state sent :
  ainvoke E h create_clinical_codes_graph initial_state sent =
    mkRun (expected_path (resolved_intent E h initial_state))
          (match summarize_results_node E (after_aggregate E h initial_state sent).1 with
           | Ok u => Finished (merge (after_aggregate E h initial_state sent).1 u)
           | Raise e => Failed e
           end)
          (after_aggregate E h initial_state sent).2.
Proof.
  unfold after_aggregate, after_dispatch.
  set (i := resolved_intent E h initial_state).
  set (s1 := merge initial_state (classify_intent_node E h initial_state)).
  assert (H1 : intent s1 = Some i) by apply resolved_intent_merged.
  destruct (search_primary_node_ok E s1 sent i H1) as (u2 & sent2 & Hp & Hu2).
  rewrite Hp. cbn [fst snd try_return].
  set (s2 := merge s1 u2).
  assert (H2 : intent s2 = Some i) by (unfold s2; by rewrite merge_keeps_intent).
  unfold ainvoke, recursion_limit.
  change (entry_point create_clinical_codes_graph) with classify_intent.
  rewrite (run_from_step _ E h _ classify_intent initial_state sent []
             (classify_intent_node E h initial_state) sent eq_refl).
  rewrite (next_target_plain classify_intent (Goto search_primary)) by done.
  fold s1. rewrite (run_from_step _ E h _ search_primary s1 sent _ u2 sent2 Hp).
  fold s2. rewrite (next_target_search_primary s2 i H2).
  unfold expected_path.
  destruct (secondary_systems i) as [|c cs] eqn:Hsec.
  - rewrite run_from_aggregate. reflexivity.
  - destruct (search_secondary_node_ok E s2 sent2 i H2) as (u3 & sent3 & Hs & Hu3).
    rewrite Hs. cbn [fst snd try_return].
    rewrite (run_from_step _ E h _ search_secondary s2 sent2 _ u3 sent3 Hs).
    rewrite (next_target_plain search_secondary (Goto aggregate_results)) by done.
    rewrite run_from_aggregate. reflexivity.
Qed.

(** X14. A run of the compiled graph is the plain composition of its nodes:
    classification, primary search, secondary search when the resolved
    intent has a secondary vocabulary, aggregation, then the summary node,
    whose failure is the only way for the run to fail. The requests of the
    run are those of the two search nodes, and neither search node raises
    on the state it is given. *)
Theorem ainvoke_is_sequential_composition
    (E : Env) (h : heap) (initial_state : AgentState) (sent : list Request) :
  let classified := merge initial_state (classify_intent_node E h initial_state) in
  let primary := search_primary_node E classified sent in
  let searched_primary := merge classified (try_return primary.1 no_update) in
  let aggregated := after_aggregate E h initial_state sent in
  ainvoke E h create_clinical_codes_graph initial_state sent =
    mkRun (expected_path (resolved_intent E h initial_state))
          (match summarize_results_node E aggregated.1 with
           | Ok u => Finished (merge aggregated.1 u)
           | Raise e => Failed e
           end)
          aggregated.2 ∧
  (∃ u, primary.1 = Ok u) ∧
  (∃ u, (search_secondary_node E searched_primary primary.2).1 = Ok u).
Proof.
  intros classified primary searched_primary aggregated.
  split; [apply ainvoke_after_aggregate|].
  assert (H1 : intent classified = Some (resolved_intent E h initial_state))
    by apply resolved_intent_merged.
  destruct (search_primary_node_ok E classified sent _ H1) as (u2 & sent2 & Hp & Hu2).
  assert (H2 : intent searched_primary = Some (resolved_intent E h initial_state)).
  { unfold searched_primary, primary. rewrite Hp. cbn [fst try_return].
    by rewrite merge_keeps_intent. }
  split.
  - exists u2. unfold primary. by rewrite Hp.
  - destruct (search_secondary_node_ok E searched_primary primary.2 _ H2)
      as (u3 & sent3 & Hs & _).
    exists u3. by rewrite Hs.
Qed.

Lemma after_dispatch_spec E h initial_state sent :
  let i := resolved_intent E h initial_state in
  let query := refined_query i in
  let primary := _search_system E (primary_system i) query 10 sent in
  let answers :=
    match secondary_systems i with
    | [] => []
    | _ :: _ => secondary_answers E (take 3 (secondary_systems i)) query primary.2
    end in
  let dispatched := after_dispatch E h initial_state sent in
  user_query dispatched.1 = user_query initial_state ∧
  conversation_history dispatched.1 = conversation_history initial_state ∧
  intent dispatched.1 = Some i ∧
  api_calls_made dispatched.1 =
    (api_calls_made initial_state ++
     (audit_record query <$> ((primary_system i, primary.1) :: answers)))%list ∧
  raw_results dispatched.1 =
    foldl store_answer (<[value (primary_system i) := primary.1]> (raw_results initial_state))
          answers ∧
  dispatched.2 =
    (sent ++ ClinicalTablesAPI.build_request
               (ClinicalTablesAPI.config_for (endpoint_of (primary_system i)))
               (endpoint_of (primary_system i)) query 10
          :: (secondary_request query <$> take 3 (secondary_systems i)))%list.
Proof.
  intros i query primary answers dispatched.
  unfold dispatched, after_dispatch. fold i.
  set (s1 := merge initial_state (classify_intent_node E h initial_state)).
  assert (H1 : intent s1 = Some i) by apply resolved_intent_merged.
  rewrite (search_primary_node_spec E s1 sent i H1). cbv zeta.
  fold query primary. cbn [fst snd try_return].
  pose proof (_search_system_sent E (primary_system i) query 10 sent int_str_ok_10) as Hsent.
  fold primary in Hsent. unfold answers.
  destruct (secondary_systems i) as [|c cs] eqn:Hsec.
  - cbn [fst snd]. repeat split; try reflexivity.
    rewrite Hsent. reflexivity.
  - set (s2 := merge s1 _).
    assert (H2 : intent s2 = Some i) by exact H1.
    rewrite (search_secondary_node_spec E s2 primary.2 i H2). cbv zeta.
    fold query. rewrite Hsec. cbn [fst snd try_return].
    repeat split; try reflexivity.
    + unfold s2. cbn [merge api_calls_made u_api_calls_made default from_option id].
      rewrite <- app_assoc. reflexivity.
    + rewrite Hsent, <- app_assoc. reflexivity.
Qed.

(** X15. In every run the requests sent are one per vocabulary searched:
    the primary one with limit 10, then the first three secondary ones with
    limit 5 each, all with the refined query. When the run finishes, the
    final state has the query and history reference it started with and the
    resolved intent; its audit trail has grown by exactly one record per
    request, in the same order; the raw results have kept their keys and
    have one for the primary vocabulary; the filtered results and confidence
    scores are those the count-based policy gives for the final raw results;
    and the summary is the text the summarizer returned for them. *)
Theorem finished_run_invariants
    (E : Env) (h : heap) (initial_state : AgentState) (sent : list Request) :
  let i := resolved_intent E h initial_state in
  let run := ainvoke E h create_clinical_codes_graph initial_state sent in
  ∃ new,
    requests run = (sent ++ new)%list ∧
    req_endpoint <$> new = endpoint_of <$> searched i ∧
    maxList <$> new = (10 :: ((λ _, 5) <$> take 3 (secondary_systems i)))%Z ∧
    Forall (λ r, terms r = refined_query i) new ∧
    ∀ final, outcome run = Finished final →
      user_query final = user_query initial_state ∧
      conversation_history final = conversation_history initial_state ∧
      intent final = Some i ∧
      (∃ calls,
         api_calls_made final = (api_calls_made initial_state ++ calls)%list ∧
         call_system <$> calls = value <$> searched i ∧
         Forall (λ c, call_query c = refined_query i) calls) ∧
      is_Some (raw_results final !! value (primary_system i)) ∧
      (∀ k, is_Some (raw_results initial_state !! k) → is_Some (raw_results final !! k)) ∧
      (∀ k, filtered_results final !! k = raw_results final !! k ≫= kept ∧
            confidence_scores final !! k = raw_results final !! k ≫= scored) ∧
      summarizer_summarize E (user_query final) (filtered_results final) i
                           (confidence_scores final) = Ok (summary final).
Proof.
  intros i run. unfold run. rewrite ainvoke_after_aggregate. cbn [requests outcome].
  unfold after_aggregate. cbn [fst snd].
  destruct (after_dispatch_spec E h initial_state sent)
    as (Hquery & Hhistory & Hintent & Hcalls & Hraw & Hsent).
  fold i in Hintent, Hcalls, Hraw, Hsent.
  set (d := after_dispatch E h initial_state sent) in *.
  set (query := refined_query i) in *.
  set (primary := _search_system E (primary_system i) query 10 sent) in *.
  set (answers := match secondary_systems i with
                  | [] => []
                  | _ :: _ =>
                      secondary_answers E (take 3 (secondary_systems i)) query primary.2
                  end) in *.
  assert (Hanswers : answers.*1 = take 3 (secondary_systems i)).
  { unfold answers. destruct (secondary_systems i) as [|c cs] eqn:Hsec; [done|].
    apply secondary_answers_systems. }
  eexists. split; [exact Hsent|].
  split.
  { unfold searched. rewrite !fmap_cons. f_equal.
    rewrite <- list_fmap_compose. by apply list_fmap_ext. }
  split.
  { rewrite !fmap_cons. f_equal.
    rewrite <- list_fmap_compose. by apply list_fmap_ext. }
  split.
  { constructor; [done|]. apply Forall_fmap, Forall_true. by intros s. }
  intros final Hfinal.
  destruct (summarize_results_node E (merge d.1 (aggregate_results_node d.1)))
    as [u|e] eqn:Hsum; [|done].
  injection Hfinal as <-.
  apply summarize_results_node_shape in Hsum as (i' & text & Hi' & Htext & ->).
  rewrite aggregate_results_node_fields in Hi', Htext |- *.
  assert (i' = i) as -> by (cbn in Hi'; congruence).
  split; [exact Hquery|]. split; [exact Hhistory|]. split; [exact Hintent|].
  split.
  { eexists. split; [exact Hcalls|]. split.
    - unfold searched. rewrite <- Hanswers, !fmap_cons. f_equal.
      rewrite <- !list_fmap_compose. by apply list_fmap_ext.
    - apply Forall_fmap, Forall_true. by intros a. }
  change (raw_results (merge (merge d.1 _) _)) with (raw_results d.1).
  split.
  { rewrite Hraw. apply foldl_store_answer_keeps. rewrite lookup_insert_eq. by eexists. }
  split.
  { intros k Hk. rewrite Hraw. apply foldl_store_answer_keeps.
    destruct (decide (value (primary_system i) = k)) as [<-|Hne].
    - rewrite lookup_insert_eq. by eexists.
    - by rewrite lookup_insert_ne. }
  split; [intros k; apply aggregate_fold_lookup|].
  exact Htext.
Qed.

(** ** More on the entry point *)

Lemma run_agent_ok E query caller h sent result history h' sent' :
  run_agent E query caller h sent = (Ok (result, history), h', sent') →
  ∃ h0,
    history_or_new caller h = (history, h0) ∧
    h' = <[history := ((h0 !!! history) ++
                       [mkHistoryEntry query (intent result) (results_summary result)])%list]> h0 ∧
    conversation_history result = history ∧
    user_query result = query.
Proof.
  unfold run_agent.
  destruct (history_or_new caller h) as [l h0].
  rewrite ainvoke_after_aggregate. cbn [outcome requests].
  destruct (summarize_results_node E _) as [u|e]; [|done].
  intros [= <- <- <- <-]. exists h0. split; [done|]. split; [done|].
  destruct (after_dispatch_spec E h0
              (mkAgentState query l None [] ∅ ∅ "" ∅) sent) as (Hq & Hh & _).
  split; [exact Hh|exact Hq].
Qed.

(** X16. Handing the list returned by one completed call of [run_agent] to
    the next call makes the history accumulate in that one list: the second
    call reads the first call's entry as conversation history, appends its
    own entry in place and returns the same list, which then holds the
    caller's original entries followed by the two entries in order. *)
Theorem run_agent_history_accumulates
    (E : Env) (q1 q2 : string) (caller : option loc) (h h1 h2 : heap)
    (sent sent1 sent2 : list Request) (r1 r2 : AgentState) (l1 l2 : loc) :
  run_agent E q1 caller h sent = (Ok (r1, l1), h1, sent1) →
  run_agent E q2 (Some l1) h1 sent1 = (Ok (r2, l2), h2, sent2) →
  l2 = l1 ∧
  conversation_history r2 = l1 ∧
  h1 !! l1 = Some (caller_entries caller h ++
                   [mkHistoryEntry q1 (intent r1) (results_summary r1)])%list ∧
  h2 !! l1 = Some (caller_entries caller h ++
                   [mkHistoryEntry q1 (intent r1) (results_summary r1);
                    mkHistoryEntry q2 (intent r2) (results_summary r2)])%list ∧
  (∀ l, l ≠ l1 → h2 !! l = h !! l).
Proof.
  intros Hfirst Hsecond.
  apply run_agent_ok in Hfirst as (h0 & Hnew1 & -> & _ & _).
  destruct (history_or_new_spec caller h)
    as (l & h0' & Hnew & Hentries & Hother & _ & _).
  rewrite Hnew1 in Hnew. injection Hnew as <- <-.
  rewrite Hentries in Hsecond |- *.
  apply run_agent_ok in Hsecond as (h0' & Hnew2 & -> & Hhist & _).
  unfold history_or_new in Hnew2.
  rewrite lookup_total_insert_eq in Hnew2.
  assert (Hl2 : (l2, h0') =
                (l1, <[l1 := (caller_entries caller h ++
                              [mkHistoryEntry q1 (intent r1) (results_summary r1)])%list]> h0)).
  { by destruct (caller_entries caller h). }
  injection Hl2 as -> ->.
  split; [done|]. split; [done|]. split; [by rewrite lookup_insert_eq|].
  split; [by rewrite lookup_insert_eq, lookup_total_insert_eq, <- app_assoc|].
  intros l' Hl'. rewrite !lookup_insert_ne by done. by apply Hother.
Qed.

Lemma run_agent_history_accumulates_witness :
  ∃ l h2,
    (∃ r1 h1 sent1 r2 sent2,
       run_agent env_down "diabetes" None ∅ [] = (Ok (r1, l), h1, sent1) ∧
       run_agent env_down "glucose" (Some l) h1 sent1 = (Ok (r2, l), h2, sent2)) ∧
    h_query <$> h2 !!! l = ["diabetes"; "glucose"].
Proof.
  eassert (H1 : run_agent env_down "diabetes" None ∅ [] = (Ok (_, _), _, _))
    by (vm_compute; reflexivity).
  match type of H1 with
  | _ = (Ok (_, ?l1), ?h1, ?sent1) =>
      eassert (H2 : run_agent env_down "glucose" (Some l1) h1 sent1 = (Ok (_, _), _, _))
        by (vm_compute; reflexivity)
  end.
  destruct (run_agent_history_accumulates _ _ _ _ _ _ _ _ _ _ _ _ _ _ H1 H2)
    as (Hl & _ & _ & Hh2 & _).
  eexists _, _. split.
  - eexists _, _, _, _, _. split; [exact H1|exact H2].
  - rewrite (lookup_total_correct _ _ _ Hh2). reflexivity.
Defined.

(** ** The relevance score *)



(** ** The text handed to the summarizer *)





Example results_text_of_six_and_none (E : Env) :
  let item n := mkCodeResult (JStr ("E1" +:+ n)) ("Diabetes " +:+ n) "icd10cm" in
  ResultSummarizer.results_text E
    [("loinc", []); ("icd10cm", item <$> ["0"; "1"; "2"; "3"; "4"; "5"])]
  = Str.join Str.newline
      [Str.newline +:+ "ICD10CM (6 codes):";
       "  â€¢ E10: Diabetes 0"; "  â€¢ E11: Diabetes 1"; "  â€¢ E12: Diabetes 2";
       "  â€¢ E13: Diabetes 3"; "  â€¢ E14: Diabetes 4"].
Proof. by vm_compute. Qed.

(** ** A run without a language model *)

Lemma run_without_llm E h initial_state sent e :
  get_llm E = Raise e →
  ainvoke E h create_clinical_codes_graph initial_state sent =
    mkRun [classify_intent; search_primary; aggregate_results; summarize]
          (Failed e)
          (sent ++ [mkRequest "icd10cm" "code,name" "code,name" 10
                              (JStr (user_query initial_state))])%list.
Proof.
  intros Hllm. rewrite ainvoke_after_aggregate.
  assert (Hi : resolved_intent E h initial_state
               = mkSearchIntent ICD10 [] (JStr (user_query initial_state)) (JStr "unknown")).
  { unfold resolved_intent, classify_intent_node. by rewrite Hllm. }
  destruct (after_dispatch_spec E h initial_state sent) as (_ & _ & _ & _ & _ & Hsent).
  unfold after_aggregate. cbn [fst snd]. rewrite Hsent, Hi.
  unfold summarize_results_node. rewrite Hllm. reflexivity.
Qed.

(** X19. When the provider named by [LLM_PROVIDER] is neither "ollama" nor
    "openai" (in any letter case), or is "openai" without a non-empty
    [OPENAI_API_KEY], constructing the language model raises [ValueError].
    A run in such a process still searches: the classification node falls
    back to ICD-10 with the user's query unrefined, one request with limit 10
    is sent, secondary search is skipped and the results are aggregated; the
    run then fails at the summary node with that [ValueError]. *)
Theorem misconfigured_provider_fails_at_summary
    (E : Env) (float : string → result Q) (environ : gmap string string)
    (h : heap) (initial_state : AgentState) (sent : list Request) :
  let name := Str.lower (Provider.getenv environ "LLM_PROVIDER" "ollama") in
  get_llm E = construct_llm float environ →
  (name ≠ "ollama" ∧ name ≠ "openai") ∨
  (name = "openai" ∧
   (∃ t, float (Provider.getenv environ "LLM_TEMPERATURE" "0") = Ok t) ∧
   (environ !! "OPENAI_API_KEY" = None ∨ environ !! "OPENAI_API_KEY" = Some "")) →
  construct_llm float environ = Raise ValueError ∧
  ainvoke E h create_clinical_codes_graph initial_state sent =
    mkRun [classify_intent; search_primary; aggregate_results; summarize]
          (Failed ValueError)
          (sent ++ [mkRequest "icd10cm" "code,name" "code,name" 10
                              (JStr (user_query initial_state))])%list.
Proof.
  intros name HE Hbad.
  assert (Hraise : construct_llm float environ = Raise ValueError).
  { unfold construct_llm, Provider.get_llm_provider. fold name.
    destruct Hbad as [[Hollama Hopenai]|(Hopenai & [t Ht] & Hkey)].
    - apply String.eqb_neq in Hollama, Hopenai. by rewrite Hollama, Hopenai.
    - rewrite Hopenai.
      change (String.eqb "openai" "ollama") with false.
      change (String.eqb "openai" "openai") with true.
      cbv iota. rewrite Ht. cbn [mbind result_bind Provider.get_llm].
      destruct Hkey as [-> | ->]; reflexivity. }
  split; [exact Hraise|].
  apply run_without_llm. by rewrite HE.
Qed.

Lemma misconfigured_provider_fails_at_summary_witness :
  ainvoke env_no_key ∅ create_clinical_codes_graph
          (mkAgentState "glucose test" 0%nat None [] ∅ ∅ "" ∅) [] =
    mkRun [classify_intent; search_primary; aggregate_results; summarize]
          (Failed ValueError)
          [mkRequest "icd10cm" "code,name" "code,name" 10 (JStr "glucose test")].
Proof.
  refine (proj2 (misconfigured_provider_fails_at_summary env_no_key (λ _, Ok 0%Q)
                   {[ "LLM_PROVIDER" := "OpenAI" ]} ∅
                   (mkAgentState "glucose test" 0%nat None [] ∅ ∅ "" ∅) [] eq_refl _)).
  right. split; [reflexivity|]. split; [by exists 0%Q|]. by left.
Defined.
